(** * local-auth: the credential bootstrap and the RADIUS authentication bridge

    A shallow embedding of
      - [initial-config/radius/scripts/authentik_auth.py] (the bridge),
      - [init/webapp/password_manager.py] (repository and service),
      - [init/webapp/app.py] (hasher strategy and configuration builder),
    followed by the properties of the design document, each stated over
    these definitions.

    Conventions.  A Python [str] is a [string]; a character is a code point
    below 256.  A Python [dict] whose iteration order is observable is an
    association list in insertion order ([pydict]); a dict that is only
    looked up is a [gmap].  A Python function that may raise returns a
    [result]; a function that mutates objects is a state transformer which
    hands the state back also when it raises. *)

From Stdlib Require Import ZArith NArith Ascii String List.
From stdpp Require Import base option strings list gmap.

Open Scope string_scope.

(* ===================================================================== *)
(** ** Exceptions and results *)
(* ===================================================================== *)

(** The exception classes the modelled code can meet. *)
Inductive exn : Type :=
| VerifyMismatchError   (* argon2.exceptions *)
| VerificationError     (* argon2.exceptions *)
| InvalidHashError      (* argon2.exceptions, a ValueError *)
| JSONDecodeError       (* json *)
| UnicodeEncodeError    (* a ValueError *)
| AttributeError
| TypeError
| KeyError.

Inductive result (A : Type) : Type :=
| Ret (a : A)
| Raise (e : exn).
Arguments Ret {A} a.
Arguments Raise {A} e.

Definition is_Ret {A} (r : result A) : bool :=
  match r with Ret _ => true | Raise _ => false end.

(* ===================================================================== *)
(** ** Python strings *)
(* ===================================================================== *)

Module PyStr.

(** [c in s] for a one-character [c]. *)
Fixpoint contains_char (c : ascii) (s : string) : bool :=
  match s with
  | EmptyString => false
  | String d s' => if Ascii.eqb c d then true else contains_char c s'
  end.

(** [str.isspace] on code points below 256. *)
Definition isspace (c : ascii) : bool :=
  let n := nat_of_ascii c in
  (((9 <=? n) && (n <=? 13)) || ((28 <=? n) && (n <=? 32))
   || (n =? 133) || (n =? 160))%nat.

Fixpoint lstrip_by (f : ascii -> bool) (s : string) : string :=
  match s with
  | EmptyString => EmptyString
  | String c s' => if f c then lstrip_by f s' else s
  end.

Fixpoint rstrip_by (f : ascii -> bool) (s : string) : string :=
  match s with
  | EmptyString => EmptyString
  | String c s' =>
      match rstrip_by f s' with
      | EmptyString => if f c then EmptyString else String c EmptyString
      | r => String c r
      end
  end.

Definition strip_by (f : ascii -> bool) (s : string) : string :=
  rstrip_by f (lstrip_by f s).

(** [s.strip()] *)
Definition strip (s : string) : string := strip_by isspace s.

(** The double quote, code point 34. *)
Definition dquote : ascii := Ascii false true false false false true false false.

(** [s.strip(q)] where [q] is the one-character string of a double quote. *)
Definition strip_quotes (s : string) : string :=
  strip_by (Ascii.eqb dquote) s.

(** [s] between two double quotes, as the f-strings of [main] write it. *)
Definition quoted (s : string) : string :=
  String dquote (s ++ String dquote EmptyString).

(** The line feed, code point 10, as a string. *)
Definition LF : string :=
  String (Ascii false true false true false false false false) EmptyString.

(** [s.split(c, 1)] for an [s] that contains [c]: the text before the
    first [c] and the text after it. *)
Fixpoint split_once (c : ascii) (s : string) : string * string :=
  match s with
  | EmptyString => (EmptyString, EmptyString)
  | String d s' =>
      if Ascii.eqb c d then (EmptyString, s')
      else let '(k, v) := split_once c s' in (String d k, v)
  end.

(** [sep.join(l)] *)
Fixpoint join (sep : string) (l : list string) : string :=
  match l with
  | [] => ""
  | [x] => x
  | x :: rest => x ++ sep ++ join sep rest
  end.

(** [sub in s] on two strings. *)
Fixpoint is_prefix (p s : string) : bool :=
  match p, s with
  | EmptyString, _ => true
  | String a p', String b s' => Ascii.eqb a b && is_prefix p' s'
  | String _ _, EmptyString => false
  end.

Fixpoint contains (sub s : string) : bool :=
  is_prefix sub s ||
  match s with
  | EmptyString => false
  | String _ s' => contains sub s'
  end.

(** The truth value of a string: non-empty. *)
Definition truthy (s : string) : bool :=
  match s with EmptyString => false | _ => true end.

End PyStr.

(* ===================================================================== *)
(** ** Insertion-ordered dictionaries *)
(* ===================================================================== *)

Definition pydict (V : Type) : Type := list (string * V).

Module Dict.
Section Ops.
Context {V : Type}.

(** [d.get(k)] / [d[k]] *)
Fixpoint get (k : string) (d : pydict V) : option V :=
  match d with
  | [] => None
  | (k', v) :: d' => if String.eqb k k' then Some v else get k d'
  end.

(** [k in d] *)
Definition has (k : string) (d : pydict V) : bool :=
  match get k d with Some _ => true | None => false end.

(** [d[k] = v]: an existing key keeps its place, a new key goes last. *)
Fixpoint set (k : string) (v : V) (d : pydict V) : pydict V :=
  match d with
  | [] => [(k, v)]
  | (k', v') :: d' =>
      if String.eqb k k' then (k', v) :: d' else (k', v') :: set k v d'
  end.

(** [del d[k]] *)
Fixpoint del (k : string) (d : pydict V) : pydict V :=
  match d with
  | [] => []
  | (k', v') :: d' =>
      if String.eqb k k' then del k d' else (k', v') :: del k d'
  end.
End Ops.
End Dict.

(* ===================================================================== *)
(** ** JSON values, as [json.load] returns them *)
(* ===================================================================== *)

(** A number is an integer here: the code modelled does with a float what
    it does with an integer. *)

#[local] Set Warnings "-register-all".

Inductive json : Type :=
| JNull
| JBool (b : bool)
| JInt (z : Z)
| JStr (s : string)
| JList (l : list json)
| JDict (d : list (string * json)).

Module Py.

(** [k in j] for a string [k]. *)
Definition contains (k : string) (j : json) : result bool :=
  match j with
  | JDict d => Ret (Dict.has k d)
  | JList l =>
      Ret (existsb (fun x => match x with JStr s => String.eqb s k | _ => false end) l)
  | JStr s => Ret (PyStr.contains k s)
  | _ => Raise TypeError
  end.

(** [j[k]] for a string [k]. *)
Definition getitem (j : json) (k : string) : result json :=
  match j with
  | JDict d =>
      match Dict.get k d with
      | Some v => Ret v
      | None => Raise KeyError
      end
  | _ => Raise TypeError
  end.

(** [j[k] = v] for a string [k]; the result is [j] after the assignment. *)
Definition setitem (j : json) (k : string) (v : json) : result json :=
  match j with
  | JDict d => Ret (JDict (Dict.set k v d))
  | _ => Raise TypeError
  end.

End Py.

(* ===================================================================== *)
(** ** The bridge: [authentik_auth.py] *)
(* ===================================================================== *)

Module Bridge.

(** One run of the script.  Standard input is the list of lines the [for]
    loop of [main] reads; the identity provider is a function from the
    request to what [requests] gives back; log records are not kept. *)

(** The three HTTP requests the script can issue. *)
Inductive request : Type :=
| PostIdentification (uid_field : string)
| PostPassword (password : string)
| GetUsers (username : string).

(** What [requests.post] / [requests.get] gives back: an exception, or a
    response with a status code and the value [response.json()] returns
    ([None] when it raises). *)
Inductive http : Type :=
| NoResponse
| Response (status_code : Z) (body : option json).

Definition provider : Type := request -> http.

(** The dict [_get_user_details] builds; Python's [None] is [JNull]. *)
Record user_data : Type := {
  username_of : json;
  email_of : json;
  groups : list json;        (* what [g.get("name")] gave for each group *)
  is_active : json;
  attributes : json
}.

(** The state of one run: the requests sent so far and the lines printed. *)
Record run : Type := {
  calls : list request;
  stdout : list string
}.

Definition start : run := {| calls := []; stdout := [] |}.

Definition send (p : provider) (q : request) (r : run) : http * run :=
  (p q, {| calls := calls r ++ [q]; stdout := stdout r |}).

Definition print (line : string) (r : run) : run :=
  {| calls := calls r; stdout := stdout r ++ [line] |}.

(** The body of [_get_user_details] runs under [except Exception], which
    returns [None] whatever was raised: in the four functions below [None]
    stands for an expression that raises. *)

(** [j.get(k, dflt)]: an [AttributeError] unless [j] is a dict. *)
Definition get (j : json) (k : string) (dflt : json) : option json :=
  match j with
  | JDict d => Some (default dflt (Dict.get k d))
  | _ => None
  end.

(** [j[0]]: the first element of a list, the first character of a string;
    a [KeyError] on a dict, whose keys are strings, an [IndexError] on what
    is empty, a [TypeError] otherwise. *)
Definition first (j : json) : option json :=
  match j with
  | JList (x :: _) => Some x
  | JStr (String c _) => Some (JStr (String c EmptyString))
  | _ => None
  end.

(** The values [for g in j] takes: the elements of a list, the characters
    of a string, the keys of a dict; a [TypeError] otherwise. *)
Definition elements (j : json) : option (list json) :=
  match j with
  | JList l => Some l
  | JStr s => Some (map (fun c => JStr (String c EmptyString)) (list_ascii_of_string s))
  | JDict d => Some (map (fun kv => JStr (fst kv)) d)
  | _ => None
  end.

(** [[g.get("name") for g in gs]] *)
Fixpoint names_of (gs : list json) : option (list json) :=
  match gs with
  | [] => Some []
  | g :: rest =>
      match get g "name" JNull with
      | Some name => option_map (cons name) (names_of rest)
      | None => None
      end
  end.

(** The truth value of a JSON value. *)
Definition truthy (j : json) : bool :=
  match j with
  | JNull => false
  | JBool b => b
  | JInt z => negb (z =? 0)%Z
  | JStr s => PyStr.truthy s
  | JList l => match l with [] => false | _ => true end
  | JDict d => match d with [] => false | _ => true end
  end.

(** What [_get_user_details] makes of the reply to its query: the dict
    built from the first entry of the results, or [None]. *)
Definition details_of (resp : http) : option user_data :=
  match resp with
  | NoResponse => None
  | Response status body =>
      if (status =? 200)%Z then
        data ← body;
        results ← get data "results" JNull;
        if truthy results then
          user ← first results;
          username ← get user "username" JNull;
          email ← get user "email" JNull;
          members ← get user "groups" (JList []);
          gs ← elements members;
          names ← names_of gs;
          active ← get user "is_active" (JBool true);
          attrs ← get user "attributes" (JDict []);
          Some {| username_of := username;
                  email_of := email;
                  groups := names;
                  is_active := active;
                  attributes := attrs |}
        else None
      else None
  end.

(** [AuthentikAuthenticator._get_user_details] *)
Definition _get_user_details (p : provider) (username : string) (r : run)
  : option user_data * run :=
  let '(resp, r) := send p (GetUsers username) r in
  (details_of resp, r).

(** [AuthentikAuthenticator.authenticate] *)
Definition authenticate (p : provider) (username password : string) (r : run)
  : (bool * option user_data) * run :=
  let '(resp, r) := send p (PostIdentification username) r in
  match resp with
  | NoResponse => ((false, None), r)
  | Response status _ =>
      if negb (status =? 200)%Z then ((false, None), r)
      else
        let '(resp, r) := send p (PostPassword password) r in
        match resp with
        | NoResponse => ((false, None), r)
        | Response status _ =>
            if (status =? 200)%Z then
              let '(user_data, r) := _get_user_details p username r in
              ((true, user_data), r)
            else ((false, None), r)
        end
  end.

(** The loop of [main] over the lines of standard input. *)
Fixpoint read_attributes (lines : list string) (attributes : gmap string string)
  : gmap string string :=
  match lines with
  | [] => attributes
  | line :: rest =>
      if PyStr.contains_char "="%char line then
        let '(key, value) := PyStr.split_once "="%char (PyStr.strip line) in
        read_attributes rest (<[key := value]> attributes)
      else read_attributes rest attributes
  end.

(** The key a line of the stream sets, if it sets one. *)
Definition line_key (line : string) : option string :=
  if PyStr.contains_char "="%char line
  then Some (fst (PyStr.split_once "="%char (PyStr.strip line)))
  else None.

(** The stream has a line for the key [k]. *)
Definition has_key (k : string) (lines : list string) : bool :=
  existsb (fun line => match line_key line with
                       | Some k' => String.eqb k' k
                       | None => false
                       end) lines.

(** [','.join(user_data['groups'])]: a [TypeError] when a name is not a
    string ([None] for a group without a name). *)
Fixpoint all_names (l : list json) : option (list string) :=
  match l with
  | [] => Some []
  | JStr s :: l' => option_map (cons s) (all_names l')
  | _ :: _ => None
  end.

(** [main]: the exit code of the process and the final run state.  An
    exception that reaches the top level ends the process with code 1. *)
Definition main (p : provider) (stdin : list string) : Z * run :=
  let attributes := read_attributes stdin ∅ in
  let username := PyStr.strip_quotes (default "" (attributes !! "User-Name")) in
  let password := PyStr.strip_quotes (default "" (attributes !! "User-Password")) in
  if negb (PyStr.truthy username) || negb (PyStr.truthy password) then
    (1%Z, start)
  else
    let '((success, user_data), r) := authenticate p username password start in
    if success then
      match user_data with
      | Some ud =>
          let r := print ("Reply-Message = " ++ PyStr.quoted ("Welcome " ++ username)) r in
          match groups ud with
          | [] => (0%Z, r)
          | gs =>
              match all_names gs with
              | Some names =>
                  (0%Z, print ("Class = " ++ PyStr.quoted (PyStr.join "," names)) r)
              | None => (1%Z, r)
              end
          end
      | None => (0%Z, r)
      end
    else
      (1%Z, print ("Reply-Message = " ++ PyStr.quoted "Authentication failed") r).

End Bridge.

(* ===================================================================== *)
(** ** The argon2-cffi library, as far as the code relies on it *)
(* ===================================================================== *)

Module Argon2.

(** The cost parameters of a [PasswordHasher]. *)
Record params : Type := {
  memory_cost : N;
  time_cost : N;
  parallelism : N
}.

(** What the library's low-level verification finds. *)
Inductive outcome : Type :=
| Verified
| Mismatch      (* raised as VerifyMismatchError *)
| Failure.      (* any other failure, raised as VerificationError *)

(** The library is not part of the repository: it is a parameter of the
    development.  [hash_secret] is [PasswordHasher.hash] with the salt it
    drew made explicit. *)
Record library : Type := {
  default_params : params;
  hash_secret : params -> string -> string -> string;
  verify_secret : string -> string -> outcome;
  needs_rehash : params -> string -> bool
}.

(** [hash.encode("ascii")] succeeds. *)
Fixpoint is_ascii (s : string) : bool :=
  match s with
  | EmptyString => true
  | String c s' => (nat_of_ascii c <? 128)%nat && is_ascii s'
  end.

(** [PasswordHasher.verify] encodes the hash as ASCII, reads the Argon2
    variant off its first nine characters and raises [InvalidHashError]
    when they are none of the three headers. *)
Definition known_header (hash : string) : bool :=
  let h := String.substring 0 9 hash in
  String.eqb h "$argon2i$" || String.eqb h "$argon2d$" || String.eqb h "$argon2id".

(** [PasswordHasher.verify(hash, password)]: [True], or an exception. *)
Definition verify (lib : library) (hash password : string) : result bool :=
  if negb (is_ascii hash) then Raise UnicodeEncodeError
  else if known_header hash then
    match verify_secret lib hash password with
    | Verified => Ret true
    | Mismatch => Raise VerifyMismatchError
    | Failure => Raise VerificationError
    end
  else Raise InvalidHashError.

(** The library's contract for the hashes it produces itself. *)
Definition sound (lib : library) : Prop :=
  forall ps salt password,
    verify lib (hash_secret lib ps salt password) password = Ret true.

End Argon2.

(* ===================================================================== *)
(** ** The state of the web application's process *)
(* ===================================================================== *)

(** What the configuration file holds: nothing (as [open(path, 'w')] leaves
    it before anything is written), the complete text [json.dump] wrote for
    a value, text that is not JSON, or a beginning (not empty, and not the
    whole) of the text [json.dump] writes for a dict.  The text of a dict
    ends with the brace that closes it, so a beginning of it is not JSON. *)
Inductive contents : Type :=
| Empty
| Dump (j : json)
| Garbage
| Partial (d : list (string * json)).

Record file : Type := {
  data : contents;
  mode : N
}.

(** The state the modelled code reads and writes.  Calls to the file system
    are taken to succeed; log records are not kept. *)
Record world : Type := {
  entropy : nat -> string;                 (* the draws from the OS random source *)
  drawn : nat;                             (* how many were taken *)
  umask : N;
  config_file : option file;               (* /config/system_config.json *)
  _temp_passwords : pydict (pydict string);(* the repository's cache *)
  heap : gmap nat (pydict json)            (* the config dicts of the builders *)
}.

Definition with_drawn (n : nat) (w : world) : world :=
  {| entropy := entropy w; drawn := n; umask := umask w;
     config_file := config_file w; _temp_passwords := _temp_passwords w;
     heap := heap w |}.

Definition with_config_file (f : option file) (w : world) : world :=
  {| entropy := entropy w; drawn := drawn w; umask := umask w;
     config_file := f; _temp_passwords := _temp_passwords w;
     heap := heap w |}.

Definition with_temp_passwords (t : pydict (pydict string)) (w : world) : world :=
  {| entropy := entropy w; drawn := drawn w; umask := umask w;
     config_file := config_file w; _temp_passwords := t;
     heap := heap w |}.

Definition with_heap (h : gmap nat (pydict json)) (w : world) : world :=
  {| entropy := entropy w; drawn := drawn w; umask := umask w;
     config_file := config_file w; _temp_passwords := _temp_passwords w;
     heap := h |}.

(** A computation: it returns or raises, and leaves a state either way. *)
Definition M (A : Type) : Type := world -> result A * world.

Definition ret {A} (a : A) : M A := fun w => (Ret a, w).

Definition raise {A} (e : exn) : M A := fun w => (Raise e, w).

Definition bind {A B} (m : M A) (k : A -> M B) : M B :=
  fun w =>
    match m w with
    | (Ret a, w') => k a w'
    | (Raise e, w') => (Raise e, w')
    end.

Definition lift {A} (r : result A) : M A := fun w => (r, w).

Notation "'let*' x ':=' m 'in' k" := (bind m (fun x => k))
  (at level 10, x name, m at level 100, k at level 200, only parsing).

(** A computation that leaves the cache of plaintexts as it found it. *)
Definition keeps_cache {A} (m : M A) : Prop :=
  forall w, _temp_passwords (snd (m w)) = _temp_passwords w.

(** Two states that differ at most in the cache of plaintexts, and a
    computation whose result, and whose effect on everything but the cache,
    do not depend on what the cache holds. *)
Definition same_but_cache (w w' : world) : Prop :=
  with_temp_passwords [] w = with_temp_passwords [] w'.

Definition cache_independent {A} (m : M A) : Prop :=
  forall w w', same_but_cache w w' ->
    fst (m w) = fst (m w') /\ same_but_cache (snd (m w)) (snd (m w')).

(** One draw from the random source ([os.urandom] under [secrets] and under
    the salt of [PasswordHasher.hash]). *)
Definition draw : M string :=
  fun w => (Ret (entropy w (drawn w)), with_drawn (S (drawn w)) w).

(* ===================================================================== *)
(** ** [password_manager.py] *)
(* ===================================================================== *)

Module PasswordManager.

(** *** The configuration file *)

(** [SecurePasswordRepository._load_config] *)
Definition _load_config : M json :=
  fun w =>
    match config_file w with
    | None => (Ret (JDict []), w)
    | Some f =>
        match data f with
        | Dump j => (Ret j, w)
        | _ => (Raise JSONDecodeError, w)
        end
    end.

(** The steps of [_save_config] on the file: [open(path, 'w')] creates the
    file or cuts it to length zero; [json.dump] writes the text piece by
    piece, so that while it is under way the file holds nothing yet or a
    beginning of the text; the rest of the dump and the end of the [with]
    block leave the whole text in it; [os.chmod] sets the mode.  The
    configuration is a dict ([config: Dict[str, Any]], and what every
    caller passes); for another value the model keeps no state with a part
    of the text. *)
Inductive fs_step : Type :=
| OpenTruncate
| DumpPart (config : json)
| DumpAndClose (config : json)
| Chmod (m : N).

Definition fs_exec (w : world) (s : fs_step) : world :=
  match s with
  | OpenTruncate =>
      let m := match config_file w with
               | Some f => mode f
               | None => N.ldiff 438 (umask w)          (* 0o666 & ~umask *)
               end in
      with_config_file (Some {| data := Empty; mode := m |}) w
  | DumpPart config =>
      match config_file w, config with
      | Some f, JDict d =>
          with_config_file (Some {| data := Partial d; mode := mode f |}) w
      | _, _ => w
      end
  | DumpAndClose config =>
      match config_file w with
      | Some f => with_config_file (Some {| data := Dump config; mode := mode f |}) w
      | None => w
      end
  | Chmod m =>
      match config_file w with
      | Some f => with_config_file (Some {| data := data f; mode := m |}) w
      | None => w
      end
  end.

Definition _save_config_steps (config : json) : list fs_step :=
  [OpenTruncate; DumpPart config; DumpAndClose config; Chmod 384].   (* 0o600 *)


(** [SecurePasswordRepository._save_config] *)
Definition _save_config (config : json) : M unit :=
  fun w => (Ret tt, fold_left fs_exec (_save_config_steps config) w).

Section Repository.
Variable lib : Argon2.library.
(** [str.upper], which leaves the code points below 256. *)
Variable upper : string -> string.

(** The parameters [SecurePasswordRepository.__init__] gives its hasher. *)
Definition hasher : Argon2.params :=
  {| Argon2.memory_cost := 65536; Argon2.time_cost := 3; Argon2.parallelism := 4 |}.

(** [SecurePasswordRepository.store_password] *)
Definition store_password (service username password_hash : string) : M unit :=
  let* config := _load_config in
  let* present := lift (Py.contains service config) in
  let* config := (if present then ret config
                  else lift (Py.setitem config service (JDict []))) in
  let* section := lift (Py.getitem config service) in
  let* section := lift (Py.setitem section (username ++ "_password_hash")
                                   (JStr password_hash)) in
  let* config := lift (Py.setitem config service section) in
  _save_config config.

(** [SecurePasswordRepository.verify_password] *)
Definition verify_password (service username password : string) : M bool :=
  let* config := _load_config in
  let* present := lift (Py.contains service config) in
  if negb present then ret false
  else
    let hash_key := username ++ "_password_hash" in
    let* section := lift (Py.getitem config service) in
    let* present := lift (Py.contains hash_key section) in
    if negb present then ret false
    else
      let* stored := lift (Py.getitem section hash_key) in
      match stored with
      | JStr hash =>
          match Argon2.verify lib hash password with
          | Ret _ => ret true
          | Raise VerifyMismatchError => ret false
          | Raise e => raise e
          end
      | _ => raise AttributeError
      end.

(** [del self._temp_passwords[service][username]] when both are there. *)
Definition clear_temporary (service username : string)
           (t : pydict (pydict string)) : pydict (pydict string) :=
  match Dict.get service t with
  | Some users =>
      if Dict.has username users
      then Dict.set service (Dict.del username users) t
      else t
  | None => t
  end.

(** [SecurePasswordRepository.update_password] *)
Definition update_password (service username new_password_hash : string) : M unit :=
  let* _ := store_password service username new_password_hash in
  fun w => (Ret tt, with_temp_passwords
                      (clear_temporary service username (_temp_passwords w)) w).

(** [SecurePasswordRepository.set_temporary_password] *)
Definition set_temporary_password (service username password : string) : M unit :=
  fun w =>
    let t := _temp_passwords w in
    let t := if Dict.has service t then t else Dict.set service [] t in
    let users := default [] (Dict.get service t) in
    (Ret tt, with_temp_passwords (Dict.set service (Dict.set username password users) t) w).

(** [SecurePasswordRepository.get_temporary_password] *)
Definition get_temporary_password (service username : string) : M (option string) :=
  fun w =>
    match Dict.get service (_temp_passwords w) with
    | Some users =>
        match Dict.get username users with
        | Some password =>
            (Ret (Some password),
             with_temp_passwords
               (Dict.set service (Dict.del username users) (_temp_passwords w)) w)
        | None => (Ret None, w)
        end
    | None => (Ret None, w)
    end.

(** The lines [generate_initialization_script] joins. *)
Definition script_lines (t : pydict (pydict string)) : list string :=
  ["#!/bin/bash"; "# Temporary passwords for initialization"] ++
  flat_map (fun '(service, users) =>
              map (fun '(username, password) =>
                     "export " ++ upper service ++ "_" ++ upper username
                               ++ "_TEMP_PASS='" ++ password ++ "'")
                  users) t.

(** [SecurePasswordRepository.generate_initialization_script] *)
Definition generate_initialization_script : M string :=
  fun w => (Ret (PyStr.join PyStr.LF (script_lines (_temp_passwords w))), w).

(** *** [PasswordManagerService], over the repository above *)

(** [PasswordManagerService.initialize_service_password] *)
Definition initialize_service_password (service username password : string) : M unit :=
  let* salt := draw in
  let password_hash :=
    Argon2.hash_secret lib (Argon2.default_params lib) salt password in
  let* _ := store_password service username password_hash in
  set_temporary_password service username password.

(** [PasswordManagerService.verify_service_password] *)
Definition verify_service_password (service username password : string) : M bool :=
  verify_password service username password.

(** [PasswordManagerService.update_service_password] *)
Definition update_service_password (service username new_password : string) : M unit :=
  let* salt := draw in
  let new_hash :=
    Argon2.hash_secret lib (Argon2.default_params lib) salt new_password in
  update_password service username new_hash.

(** [PasswordManagerService.get_initialization_passwords] *)
Definition get_initialization_passwords : M (pydict (pydict string)) :=
  fun w => (Ret (_temp_passwords w), w).

(** *** Sequences of calls *)

(** A call of a public method of the repository or of the service. *)
Inductive operation : Type :=
| StorePassword (service username password_hash : string)
| VerifyPassword (service username password : string)
| UpdatePassword (service username new_password_hash : string)
| SetTemporaryPassword (service username password : string)
| GetTemporaryPassword (service username : string)
| GenerateInitializationScript
| InitializeServicePassword (service username password : string)
| VerifyServicePassword (service username password : string)
| UpdateServicePassword (service username new_password : string)
| GetInitializationPasswords.

(** The state a call leaves, whether it returns or raises. *)
Definition perform (w : world) (op : operation) : world :=
  match op with
  | StorePassword s u h => snd (store_password s u h w)
  | VerifyPassword s u p => snd (verify_password s u p w)
  | UpdatePassword s u h => snd (update_password s u h w)
  | SetTemporaryPassword s u p => snd (set_temporary_password s u p w)
  | GetTemporaryPassword s u => snd (get_temporary_password s u w)
  | GenerateInitializationScript => snd (generate_initialization_script w)
  | InitializeServicePassword s u p => snd (initialize_service_password s u p w)
  | VerifyServicePassword s u p => snd (verify_service_password s u p w)
  | UpdateServicePassword s u p => snd (update_service_password s u p w)
  | GetInitializationPasswords => snd (get_initialization_passwords w)
  end.

Definition perform_all (ops : list operation) (w : world) : world :=
  fold_left perform ops w.

(** The call stages a plaintext for the key [(service, username)]. *)
Definition stages (service username : string) (op : operation) : bool :=
  match op with
  | SetTemporaryPassword s u _
  | InitializeServicePassword s u _ => String.eqb s service && String.eqb u username
  | _ => false
  end.

(** The file is absent, or holds a dict in which [service], if it is a
    key, is bound to a dict: what [store_password] needs to go through. *)
Definition accepts_service (service : string) (w : world) : bool :=
  match config_file w with
  | None => true
  | Some f =>
      match data f with
      | Dump (JDict d) =>
          match Dict.get service d with
          | None | Some (JDict _) => true
          | Some _ => false
          end
      | _ => false
      end
  end.

(** The plaintext the cache holds for a key. *)
Definition staged (service username : string) (t : pydict (pydict string))
  : option string :=
  match Dict.get service t with
  | Some users => Dict.get username users
  | None => None
  end.

End Repository.

End PasswordManager.

(* ===================================================================== *)
(** ** [app.py]: the hashing strategy and the configuration builder *)
(* ===================================================================== *)

Module App.

(** [PasswordHasherInterface] *)
Class PasswordHasherInterface (H : Type) : Type := {
  hash_password : H -> string -> M string;
  verify_password : H -> string -> string -> M bool
}.

(** [Argon2PasswordHasher]: the library and the [PasswordHasher] it holds. *)
Record Argon2PasswordHasher : Type := {
  lib : Argon2.library;
  ph : Argon2.params
}.

(** [Argon2PasswordHasher.__init__] *)
Definition Argon2PasswordHasher_init (l : Argon2.library) : Argon2PasswordHasher :=
  {| lib := l;
     ph := {| Argon2.memory_cost := 65536; Argon2.time_cost := 3;
              Argon2.parallelism := 4 |} |}.

(** [Argon2PasswordHasher.hash_password] *)
Definition argon2_hash_password (self : Argon2PasswordHasher) (password : string)
  : M string :=
  let* salt := draw in
  ret (Argon2.hash_secret (lib self) (ph self) salt password).

(** [Argon2PasswordHasher.verify_password] *)
Definition argon2_verify_password (self : Argon2PasswordHasher)
           (password hash : string) : M bool :=
  match Argon2.verify (lib self) hash password with
  | Ret _ =>
      if Argon2.needs_rehash (lib self) (ph self) hash
      then ret true
      else ret true
  | Raise VerifyMismatchError => ret false
  | Raise e => raise e
  end.

#[global] Instance Argon2_hasher : PasswordHasherInterface Argon2PasswordHasher := {
  hash_password := argon2_hash_password;
  verify_password := argon2_verify_password
}.

(** *** [ConfigurationBuilder] *)

(** The builder object: its hasher and the reference to its [config]
    dict, which lives in the heap.  The section dicts the setters create
    are fresh and never changed afterwards: they are kept as values. *)
Record ConfigurationBuilder (H : Type) : Type := {
  hasher : H;
  config : nat
}.
Arguments hasher {H} _.
Arguments config {H} _.

(** [self.config[key] = value] *)
Definition config_set (ref : nat) (key : string) (value : json) : M unit :=
  fun w =>
    match heap w !! ref with
    | Some d => (Ret tt, with_heap (<[ref := Dict.set key value d]> (heap w)) w)
    | None => (Raise AttributeError, w)
    end.

(** The first address no object of the heap has. *)
Definition fresh (h : gmap nat (pydict json)) : nat :=
  S (list_max (map fst (map_to_list h))).

Section Builder.
Context {H : Type} `{PasswordHasherInterface H}.

(** [ConfigurationBuilder.__init__] *)
Definition ConfigurationBuilder_init (hasher : H) : M (ConfigurationBuilder H) :=
  fun w =>
    let ref := fresh (heap w) in
    (Ret {| hasher := hasher; config := ref |},
     with_heap (<[ref := [("version", JStr "1.0");
                          ("security", JDict []);
                          ("services", JDict []);
                          ("initialized", JBool false)]]> (heap w)) w).

(** [ConfigurationBuilder.set_admin_credentials] *)
Definition set_admin_credentials (self : ConfigurationBuilder H)
           (email password : string) : M (ConfigurationBuilder H) :=
  let* password_hash := hash_password (hasher self) password in
  let* _ := config_set (config self) "admin"
              (JDict [("email", JStr email);
                      ("password_hash", JStr password_hash)]) in
  ret self.

(** [ConfigurationBuilder.set_database_credentials] *)
Definition set_database_credentials (self : ConfigurationBuilder H)
           (username password database : string) : M (ConfigurationBuilder H) :=
  let* password_hash := hash_password (hasher self) password in
  let* _ := config_set (config self) "database"
              (JDict [("username", JStr username);
                      ("password_hash", JStr password_hash);
                      ("database", JStr database);
                      ("host", JStr "postgresql");
                      ("port", JInt 5432)]) in
  ret self.

(** [ConfigurationBuilder.set_ldap_configuration] *)
Definition set_ldap_configuration (self : ConfigurationBuilder H)
           (base_dn admin_password readonly_password : string)
  : M (ConfigurationBuilder H) :=
  let* admin_password_hash := hash_password (hasher self) admin_password in
  let* readonly_password_hash := hash_password (hasher self) readonly_password in
  let* _ := config_set (config self) "ldap"
              (JDict [("base_dn", JStr base_dn);
                      ("admin_password_hash", JStr admin_password_hash);
                      ("readonly_password_hash", JStr readonly_password_hash);
                      ("host", JStr "openldap");
                      ("port", JInt 389)]) in
  ret self.

(** [ConfigurationBuilder.set_radius_configuration] *)
Definition set_radius_configuration (self : ConfigurationBuilder H)
           (shared_secret : string) (clients : list json)
  : M (ConfigurationBuilder H) :=
  let* shared_secret_hash := hash_password (hasher self) shared_secret in
  let* _ := config_set (config self) "radius"
              (JDict [("shared_secret_hash", JStr shared_secret_hash);
                      ("clients", JList clients)]) in
  ret self.

(** [ConfigurationBuilder.set_security_keys] *)
Definition set_security_keys (self : ConfigurationBuilder H)
           (authentik_secret : string) : M (ConfigurationBuilder H) :=
  let* api_token := draw in
  let* _ := config_set (config self) "security"
              (JDict [("authentik_secret_key", JStr authentik_secret);
                      ("api_token", JStr api_token)]) in
  ret self.

(** [ConfigurationBuilder.build]: the reference to [self.config]. *)
Definition build (self : ConfigurationBuilder H) : M nat :=
  let* _ := config_set (config self) "initialized" (JBool true) in
  ret (config self).

(** *** Sequences of setter calls *)

(** A call of one of the five setters. *)
Inductive setter_call : Type :=
| SetAdminCredentials (email password : string)
| SetDatabaseCredentials (username password database : string)
| SetLdapConfiguration (base_dn admin_password readonly_password : string)
| SetRadiusConfiguration (shared_secret : string) (clients : list json)
| SetSecurityKeys (authentik_secret : string).

Definition invoke (self : ConfigurationBuilder H) (c : setter_call)
  : M (ConfigurationBuilder H) :=
  match c with
  | SetAdminCredentials email password =>
      set_admin_credentials self email password
  | SetDatabaseCredentials username password database =>
      set_database_credentials self username password database
  | SetLdapConfiguration base_dn admin_password readonly_password =>
      set_ldap_configuration self base_dn admin_password readonly_password
  | SetRadiusConfiguration shared_secret clients =>
      set_radius_configuration self shared_secret clients
  | SetSecurityKeys authentik_secret =>
      set_security_keys self authentik_secret
  end.

(** The calls chained, as in [builder.set_a(...).set_b(...)]. *)
Fixpoint invoke_all (self : ConfigurationBuilder H) (cs : list setter_call)
  : M (ConfigurationBuilder H) :=
  match cs with
  | [] => ret self
  | c :: cs' => let* self := invoke self c in invoke_all self cs'
  end.

(** A fresh builder, the calls, then [build()]. *)
Definition assemble (hasher : H) (cs : list setter_call) : M nat :=
  let* builder := ConfigurationBuilder_init hasher in
  let* builder := invoke_all builder cs in
  build builder.

End Builder.

(** The dict a reference points to. *)
Definition deref (ref : nat) : M (option (pydict json)) :=
  fun w => (Ret (heap w !! ref), w).

(** The key of the aggregate a setter assigns. *)
Definition section_key (c : setter_call) : string :=
  match c with
  | SetAdminCredentials _ _ => "admin"
  | SetDatabaseCredentials _ _ _ => "database"
  | SetLdapConfiguration _ _ _ => "ldap"
  | SetRadiusConfiguration _ _ => "radius"
  | SetSecurityKeys _ => "security"
  end.

(** The section a setter is to assign with the Argon2 hasher, [d1] and [d2]
    being the random draws made during the call: a password or shared
    secret goes in as its hash, the Authentik secret key goes in as it is. *)
Definition section_of (self : Argon2PasswordHasher) (c : setter_call)
           (d1 d2 : string) : json :=
  let hashed salt secret := JStr (Argon2.hash_secret (lib self) (ph self) salt secret) in
  match c with
  | SetAdminCredentials email password =>
      JDict [("email", JStr email); ("password_hash", hashed d1 password)]
  | SetDatabaseCredentials username password database =>
      JDict [("username", JStr username); ("password_hash", hashed d1 password);
             ("database", JStr database); ("host", JStr "postgresql");
             ("port", JInt 5432)]
  | SetLdapConfiguration base_dn admin_password readonly_password =>
      JDict [("base_dn", JStr base_dn);
             ("admin_password_hash", hashed d1 admin_password);
             ("readonly_password_hash", hashed d2 readonly_password);
             ("host", JStr "openldap"); ("port", JInt 389)]
  | SetRadiusConfiguration shared_secret clients =>
      JDict [("shared_secret_hash", hashed d1 shared_secret);
             ("clients", JList clients)]
  | SetSecurityKeys authentik_secret =>
      JDict [("authentik_secret_key", JStr authentik_secret);
             ("api_token", JStr d1)]
  end.

(** The entries [__init__] puts in the aggregate, [initialized] being what
    [build()] sets to [True]. *)
Definition initial_entries (initialized : bool) : pydict json :=
  [("version", JStr "1.0"); ("security", JDict []); ("services", JDict []);
   ("initialized", JBool initialized)].

(** Every entry of the dict is an initial entry or the section one of the
    calls is to assign. *)
Definition assembled_from (self : Argon2PasswordHasher) (initialized : bool)
           (cs : list setter_call) (d : pydict json) : Prop :=
  forall k v,
    Dict.get k d = Some v ->
    In (k, v) (initial_entries initialized) \/
    exists c d1 d2, In c cs /\ k = section_key c /\ v = section_of self c d1 d2.

End App.

(* ===================================================================== *)
(** ** [app.py]: the configuration manager and the routes *)
(* ===================================================================== *)

Module Setup.

(** A text file of the configuration directory. *)
Record text_file : Type := {
  text : string;
  text_mode : N
}.

(** The process of the web application together with the other files of
    [/config] it reads and writes. *)
Record site : Type := {
  process : world;
  init_flag : bool;                        (* /config/.initialized exists *)
  env_secure : option text_file;           (* /config/.env.secure *)
  init_passwords_sh : option text_file     (* /config/init_passwords.sh *)
}.

Definition with_process (w : world) (s : site) : site :=
  {| process := w; init_flag := init_flag s; env_secure := env_secure s;
     init_passwords_sh := init_passwords_sh s |}.

Definition with_init_flag (b : bool) (s : site) : site :=
  {| process := process s; init_flag := b; env_secure := env_secure s;
     init_passwords_sh := init_passwords_sh s |}.

Definition with_env_secure (f : option text_file) (s : site) : site :=
  {| process := process s; init_flag := init_flag s; env_secure := f;
     init_passwords_sh := init_passwords_sh s |}.

Definition with_init_passwords_sh (f : option text_file) (s : site) : site :=
  {| process := process s; init_flag := init_flag s; env_secure := env_secure s;
     init_passwords_sh := f |}.

(** A computation of the web application. *)
Definition W (A : Type) : Type := site -> result A * site.

Definition retW {A} (a : A) : W A := fun s => (Ret a, s).

Definition bindW {A B} (m : W A) (k : A -> W B) : W B :=
  fun s =>
    match m s with
    | (Ret a, s') => k a s'
    | (Raise e, s') => (Raise e, s')
    end.

(** A computation of the process, run inside the site. *)
Definition in_process {A} (m : M A) : W A :=
  fun s => let '(r, w) := m (process s) in (r, with_process w s).

Notation "'let+' x ':=' m 'in' k" := (bindW m (fun x => k))
  (at level 10, x name, m at level 100, k at level 200, only parsing).

(** What a route answers: the HTTP status and the JSON body, which is an
    error message, the message made from an exception, or the success body. *)
Inductive reply : Type :=
| ErrorMessage (msg : string)
| InitializationFailed (e : exn)
| Success.

Record response : Type := {
  status : Z;
  body : reply
}.

(** [try: ... except Exception as e: return ... 500] *)
Definition or_500 (m : W response) : W response :=
  fun s =>
    match m s with
    | (Ret r, s') => (Ret r, s')
    | (Raise e, s') => (Ret {| status := 500; body := InitializationFailed e |}, s')
    end.

(** [data[key]] on the posted form, whose fields are strings. *)
Definition item (data : pydict string) (key : string) : W string :=
  fun s =>
    match Dict.get key data with
    | Some v => (Ret v, s)
    | None => (Raise KeyError, s)
    end.

Section Manager.
Variable lib : Argon2.library.
(** The text an f-string puts for a value; for a string, the string. *)
Variable format : json -> string.

(** [ConfigurationManager.save_configuration] *)
Definition save_configuration (config : pydict json) : W unit :=
  in_process (fun w =>
    (Ret tt,
     fold_left PasswordManager.fs_exec
       [PasswordManager.OpenTruncate;
        PasswordManager.DumpPart (JDict config);
        PasswordManager.DumpAndClose (JDict config);
        PasswordManager.Chmod 384] w)).

(** [ConfigurationManager.load_configuration] *)
Definition load_configuration : W (option json) :=
  in_process (fun w =>
    match config_file w with
    | None => (Ret None, w)
    | Some f =>
        match data f with
        | Dump j => (Ret (Some j), w)
        | _ => (Raise JSONDecodeError, w)
        end
    end).

(** [ConfigurationManager.is_initialized] *)
Definition is_initialized : W bool := fun s => (Ret (init_flag s), s).

(** [ConfigurationManager.mark_initialized] *)
Definition mark_initialized : W unit := fun s => (Ret tt, with_init_flag true s).

(** [config[section][key]], formatted. *)
Definition field (config : json) (section key : string) : result string :=
  match Py.getitem config section with
  | Ret sec =>
      match Py.getitem sec key with
      | Ret v => Ret (format v)
      | Raise e => Raise e
      end
  | Raise e => Raise e
  end.

(** The text of [.env.secure], from the five values. *)
Definition env_content (username database email base_dn secret_key : string) : string :=
  PyStr.join PyStr.LF
    ["# Auto-generated secure configuration";
     "# DO NOT EDIT DIRECTLY - Use password reset scripts or web UI";
     "";
     "# Database";
     "PG_USER=" ++ username;
     "PG_DB=" ++ database;
     "";
     "# Admin";
     "ADMIN_EMAIL=" ++ email;
     "";
     "# LDAP";
     "LDAP_BASE_DN=" ++ base_dn;
     "";
     "# Security";
     "AUTHENTIK_SECRET_KEY=" ++ secret_key;
     "";
     "# Note: Passwords are stored hashed in /config/system_config.json";
     ""].

(** [ConfigurationManager.generate_environment_file] *)
Definition generate_environment_file (config : json) : W unit :=
  fun s =>
    match field config "database" "username" with
    | Raise e => (Raise e, s)
    | Ret username =>
    match field config "database" "database" with
    | Raise e => (Raise e, s)
    | Ret database =>
    match field config "admin" "email" with
    | Raise e => (Raise e, s)
    | Ret email =>
    match field config "ldap" "base_dn" with
    | Raise e => (Raise e, s)
    | Ret base_dn =>
    match field config "security" "authentik_secret_key" with
    | Raise e => (Raise e, s)
    | Ret secret_key =>
        (Ret tt,
         with_env_secure
           (Some {| text := env_content username database email base_dn secret_key;
                    text_mode := 384 |}) s)
    end end end end end.

(** The text of [init_passwords.sh]. *)
Definition init_script (passwords : pydict string) : string :=
  fold_left (fun script '(key, value) =>
               script ++ "export " ++ key ++ "='" ++ value ++ "'" ++ PyStr.LF)
            passwords
            ("#!/bin/bash" ++ PyStr.LF ++ "# Temporary passwords for initialization"
                           ++ PyStr.LF ++ PyStr.LF).

(** [ConfigurationManager.save_initialization_passwords] *)
Definition save_initialization_passwords (passwords : pydict string) : W unit :=
  fun s =>
    (Ret tt,
     with_init_passwords_sh
       (Some {| text := init_script passwords; text_mode := 384 |}) s).

(** The fields the form must have, in the order they are checked. *)
Definition required_fields : list string :=
  ["admin_email"; "admin_password"; "admin_password_confirm";
   "db_password"; "ldap_admin_password"; "ldap_readonly_password"].

(** The first required field that [data.get(field)] finds missing or empty. *)
Fixpoint first_missing (fields : list string) (data : pydict string) : option string :=
  match fields with
  | [] => None
  | f :: rest =>
      if PyStr.truthy (default "" (Dict.get f data))
      then first_missing rest data
      else Some f
  end.

(** The route [/api/check-status]: the two values of its body. *)
Definition check_status : W (bool * bool) :=
  let+ initialized := is_initialized in
  let+ config := load_configuration in
  retW (initialized, match config with Some _ => true | None => false end).

(** The route [/api/initialize], on the posted form [form]. *)
Definition initialize (form : pydict string) : W response :=
  let+ done := is_initialized in
  if done then
    retW {| status := 400; body := ErrorMessage "System already initialized" |}
  else or_500 (
    match first_missing required_fields form with
    | Some f =>
        retW {| status := 400; body := ErrorMessage ("Missing required field: " ++ f) |}
    | None =>
    let+ admin_password := item form "admin_password" in
    let+ admin_password_confirm := item form "admin_password_confirm" in
    if negb (String.eqb admin_password admin_password_confirm) then
      retW {| status := 400; body := ErrorMessage "Admin passwords do not match" |}
    else
    let+ admin_password := item form "admin_password" in
    if (String.length admin_password <? 12)%nat then
      retW {| status := 400;
              body := ErrorMessage "Admin password must be at least 12 characters" |}
    else
    let hasher := App.Argon2PasswordHasher_init lib in
    let+ builder := in_process (App.ConfigurationBuilder_init hasher) in
    let+ authentik_secret := in_process draw in
    let+ admin_email := item form "admin_email" in
    let+ admin_password := item form "admin_password" in
    let+ builder := in_process (App.set_admin_credentials builder admin_email admin_password) in
    let+ db_password := item form "db_password" in
    let+ builder := in_process
      (App.set_database_credentials builder
         (default "authentik" (Dict.get "db_username" form))
         db_password
         (default "authentik" (Dict.get "db_name" form))) in
    let+ ldap_admin_password := item form "ldap_admin_password" in
    let+ ldap_readonly_password := item form "ldap_readonly_password" in
    let+ builder := in_process
      (App.set_ldap_configuration builder
         (default "dc=local,dc=auth" (Dict.get "ldap_base_dn" form))
         ldap_admin_password ldap_readonly_password) in
    let+ radius_default := in_process draw in
    let+ builder := in_process
      (App.set_radius_configuration builder
         (default radius_default (Dict.get "radius_secret" form)) []) in
    let+ builder := in_process (App.set_security_keys builder authentik_secret) in
    let+ ref := in_process (App.build builder) in
    let+ config := in_process (App.deref ref) in
    let config := default [] config in
    let+ _ := save_configuration config in
    let+ _ := generate_environment_file (JDict config) in
    let+ db_password := item form "db_password" in
    let+ ldap_admin_password := item form "ldap_admin_password" in
    let+ ldap_readonly_password := item form "ldap_readonly_password" in
    let+ admin_password := item form "admin_password" in
    let+ _ := save_initialization_passwords
                [("DB_INIT_PASSWORD", db_password);
                 ("LDAP_ADMIN_INIT_PASSWORD", ldap_admin_password);
                 ("LDAP_READONLY_INIT_PASSWORD", ldap_readonly_password);
                 ("ADMIN_INIT_PASSWORD", admin_password)] in
    let+ db_password := item form "db_password" in
    let+ _ := in_process
      (PasswordManager.initialize_service_password lib "database" "authentik" db_password) in
    let+ ldap_admin_password := item form "ldap_admin_password" in
    let+ _ := in_process
      (PasswordManager.initialize_service_password lib "ldap" "admin" ldap_admin_password) in
    let+ ldap_readonly_password := item form "ldap_readonly_password" in
    let+ _ := in_process
      (PasswordManager.initialize_service_password lib "ldap" "readonly"
         ldap_readonly_password) in
    let+ admin_password := item form "admin_password" in
    let+ _ := in_process
      (PasswordManager.initialize_service_password lib "authentik" "admin" admin_password) in
    let+ _ := mark_initialized in
    retW {| status := 200; body := Success |}
    end).

End Manager.

End Setup.

(* ===================================================================== *)
(** ** Notions used to state further properties *)
(* ===================================================================== *)

(** The value [main] uses for a key: the last one the stream sets, without
    its leading and trailing double quotes; empty when none sets it. *)
Definition parsed (key : string) (stdin : list string) : string :=
  PyStr.strip_quotes (default "" (Bridge.read_attributes stdin ∅ !! key)).

(** A flow stage answered with status 200. *)
Definition stage_ok (h : Bridge.http) : bool :=
  match h with
  | Bridge.Response status _ => (status =? 200)%Z
  | Bridge.NoResponse => false
  end.

(** The line printed on rejection. *)
Definition failure_line : string :=
  "Reply-Message = " ++ PyStr.quoted "Authentication failed".

(** The three requests of a complete run, in the order they are sent. *)
Definition full_exchange (username password : string) : list Bridge.request :=
  [Bridge.PostIdentification username; Bridge.PostPassword password;
   Bridge.GetUsers username].

(** A key that has no equals sign and does not begin with white space. *)
Definition plain_key (k : string) : bool :=
  negb (PyStr.contains_char "="%char k) &&
  match k with
  | EmptyString => true
  | String c _ => negb (PyStr.isspace c)
  end.

(** The last character of a string. *)
Fixpoint last_char (s : string) : option ascii :=
  match s with
  | EmptyString => None
  | String c EmptyString => Some c
  | String _ s' => last_char s'
  end.

(** A value that neither begins nor ends with a double quote. *)
Definition bare (v : string) : bool :=
  match v with
  | EmptyString => true
  | String c _ =>
      negb (Ascii.eqb PyStr.dquote c) &&
      match last_char v with
      | Some d => negb (Ascii.eqb PyStr.dquote d)
      | None => true
      end
  end.

(** The record the configuration file holds for a key, if it holds a dict
    with a dict for the service. *)
Definition stored_hash (service username : string) (w : world) : option json :=
  match config_file w with
  | Some {| data := Dump (JDict d) |} =>
      match Dict.get service d with
      | Some (JDict section) => Dict.get (username ++ "_password_hash") section
      | _ => None
      end
  | _ => None
  end.

(** The dict [_load_config] returns when the file is absent or holds one. *)
Definition config_dict (w : world) : pydict json :=
  match config_file w with
  | Some {| data := Dump (JDict d) |} => d
  | _ => []
  end.

(** The section of a service in a dict, empty when there is none. *)
Definition section_of_service (service : string) (d : pydict json) : pydict json :=
  match Dict.get service d with
  | Some (JDict section) => section
  | _ => []
  end.

(** A library that tells another password from the one a hash was made of. *)
Definition discerning (lib : Argon2.library) : Prop :=
  forall ps salt password other,
    other <> password ->
    Argon2.verify lib (Argon2.hash_secret lib ps salt password) other
      = Raise VerifyMismatchError.

(** The fields of its section in which a setter puts a hash, each with the
    plaintext it was given. *)
Definition secrets_of (c : App.setter_call) : list (string * string) :=
  match c with
  | App.SetAdminCredentials _ password => [("password_hash", password)]
  | App.SetDatabaseCredentials _ password _ => [("password_hash", password)]
  | App.SetLdapConfiguration _ admin_password readonly_password =>
      [("admin_password_hash", admin_password);
       ("readonly_password_hash", readonly_password)]
  | App.SetRadiusConfiguration shared_secret _ => [("shared_secret_hash", shared_secret)]
  | App.SetSecurityKeys _ => []
  end.

(** What both [verify_password] methods make of the library's answer. *)
Definition verdict (r : result bool) : result bool :=
  match r with
  | Ret _ => Ret true
  | Raise VerifyMismatchError => Ret false
  | Raise e => Raise e
  end.

(** The value of a field of the posted form, empty when it is not there. *)
Definition field_of (form : pydict string) (k : string) : string :=
  default "" (Dict.get k form).

(** A form that passes the three checks of the route [/api/initialize]:
    every required field is there and not empty, the admin password equals
    its confirmation and has at least twelve characters. *)
Definition valid_form (form : pydict string) : bool :=
  match Setup.first_missing Setup.required_fields form with
  | Some _ => false
  | None =>
      String.eqb (field_of form "admin_password") (field_of form "admin_password_confirm")
      && negb (String.length (field_of form "admin_password") <? 12)%nat
  end.

(** The answer of the route [/api/initialize] on success. *)
Definition initialized_ok : Setup.response :=
  {| Setup.status := 200; Setup.body := Setup.Success |}.

(** The answer of a route that refuses the request. *)
Definition refused (msg : string) : Setup.response :=
  {| Setup.status := 400; Setup.body := Setup.ErrorMessage msg |}.

(** The four credentials the route hands to the password service: service,
    user and the field of the form that holds the password. *)
Definition service_credentials : list (string * string * string) :=
  [("database", "authentik", "db_password");
   ("ldap", "admin", "ldap_admin_password");
   ("ldap", "readonly", "ldap_readonly_password");
   ("authentik", "admin", "admin_password")].

(** The text the route writes to [init_passwords.sh] for a form. *)
Definition init_passwords_text (form : pydict string) : string :=
  Setup.init_script
    [("DB_INIT_PASSWORD", field_of form "db_password");
     ("LDAP_ADMIN_INIT_PASSWORD", field_of form "ldap_admin_password");
     ("LDAP_READONLY_INIT_PASSWORD", field_of form "ldap_readonly_password");
     ("ADMIN_INIT_PASSWORD", field_of form "admin_password")].

(** The state [s'] is what a successful run of the route on [form] leaves
    when started in [s]. *)
Definition provisioned (lib : Argon2.library) (format : json -> string)
           (form : pydict string) (s s' : Setup.site) : Prop :=
  Setup.init_flag s' = true /\
  Setup.init_passwords_sh s' =
    Some {| Setup.text := init_passwords_text form; Setup.text_mode := 384 |} /\
  (forall service username field,
     In (service, username, field) service_credentials ->
     PasswordManager.staged service username (_temp_passwords (Setup.process s'))
       = Some (field_of form field)) /\
  (Argon2.sound lib ->
   forall service username field,
     In (service, username, field) service_credentials ->
     fst (PasswordManager.verify_password lib service username (field_of form field)
            (Setup.process s')) = Ret true) /\
  Dict.get "initialized" (config_dict (Setup.process s')) = Some (JBool true) /\
  Dict.get "security" (config_dict (Setup.process s')) =
    Some (JDict [("authentik_secret_key",
                  JStr (entropy (Setup.process s) (drawn (Setup.process s))));
                 ("api_token",
                  JStr (entropy (Setup.process s) (7 + drawn (Setup.process s))))]) /\
  Setup.env_secure s' =
    Some {| Setup.text :=
              Setup.env_content
                (format (JStr (default "authentik" (Dict.get "db_username" form))))
                (format (JStr (default "authentik" (Dict.get "db_name" form))))
                (format (JStr (field_of form "admin_email")))
                (format (JStr (default "dc=local,dc=auth" (Dict.get "ldap_base_dn" form))))
                (format (JStr (entropy (Setup.process s) (drawn (Setup.process s)))));
            Setup.text_mode := 384 |}.

(* ===================================================================== *)
(** ** Concrete inputs *)
(* ===================================================================== *)

(** The values of the string leaves and keys of a JSON value that contain
    [needle]: what a scan of the value for a text looks at. *)
Fixpoint json_mentions (needle : string) (j : json) : bool :=
  match j with
  | JStr s => PyStr.contains needle s
  | JList l => existsb (json_mentions needle) l
  | JDict d =>
      (fix scan (d : list (string * json)) : bool :=
         match d with
         | [] => false
         | (k, v) :: d' =>
             PyStr.contains needle k || json_mentions needle v || scan d'
         end) d
  | _ => false
  end.

Module Scenario.
Import Bridge.

(** The eight bits of a character, as the characters 0 and 1. *)
Definition bit (b : bool) : ascii := if b then "1"%char else "0"%char.

Fixpoint bits (s : string) : string :=
  match s with
  | EmptyString => EmptyString
  | String (Ascii b0 b1 b2 b3 b4 b5 b6 b7) s' =>
      String (bit b0) (String (bit b1) (String (bit b2) (String (bit b3)
      (String (bit b4) (String (bit b5) (String (bit b6) (String (bit b7)
      (bits s'))))))))
  end.

(** The text after the third dollar sign. *)
Definition last_field (hash : string) : string :=
  snd (PyStr.split_once "$"%char
         (snd (PyStr.split_once "$"%char (snd (PyStr.split_once "$"%char hash))))).

(** A stand-in for the library, enough to run the code on examples: a hash
    is the Argon2id header followed by the bits of the salt, a dollar sign
    and the bits of the password. *)
Definition stand_in : Argon2.library :=
  {| Argon2.default_params :=
       {| Argon2.memory_cost := 65536; Argon2.time_cost := 3; Argon2.parallelism := 4 |};
     Argon2.hash_secret := fun _ salt password =>
       "$argon2id$" ++ bits salt ++ "$" ++ bits password;
     Argon2.verify_secret := fun hash password =>
       if String.eqb (last_field hash) (bits password)
       then Argon2.Verified else Argon2.Mismatch;
     Argon2.needs_rehash := fun _ _ => false |}.

(** Upper case on the letters a to z. *)
Fixpoint upper (s : string) : string :=
  match s with
  | EmptyString => EmptyString
  | String c s' =>
      let n := nat_of_ascii c in
      String (if ((97 <=? n) && (n <=? 122))%nat then ascii_of_nat (n - 32) else c)
             (upper s')
  end.

(** A process that has just started: no configuration file, an empty
    cache, no builder; the n-th draw is a text of n letters. *)
Definition boot : world :=
  {| entropy := fun n => String.concat "" (repeat "s" (S n));
     drawn := 0;
     umask := 18;
     config_file := None;
     _temp_passwords := [];
     heap := ∅ |}.

(** The state after the design document's [initialize] example. *)
Definition provisioned : world :=
  snd (PasswordManager.initialize_service_password stand_in "db" "app" "P@ss1234" boot).

(** A store whose record for the key is not a hash. *)
Definition damaged : world :=
  snd (PasswordManager.store_password "db" "app" "not-a-hash" boot).

(** A builder of [app.py]: fresh, built, then one more setter call; the
    aggregate [build()] returned, read before and after that call. *)
Definition set_after_build : M (option (pydict json) * option (pydict json)) :=
  let* builder := App.ConfigurationBuilder_init (App.Argon2PasswordHasher_init stand_in) in
  let* aggregate := App.build builder in
  let* before := App.deref aggregate in
  let* _ := App.set_admin_credentials builder "root@example.org" "correct-horse" in
  let* after := App.deref aggregate in
  ret (before, after).

(** The aggregate built after a call of [set_security_keys]. *)
Definition built_with_key : M (option (pydict json)) :=
  let* aggregate := App.assemble (App.Argon2PasswordHasher_init stand_in)
                      [App.SetSecurityKeys "s3cr3t-key"] in
  App.deref aggregate.

(** The attribute stream of the design document's bridge scenarios. *)
Definition stdin_jdoe : list string :=
  ["User-Name=jdoe" ++ PyStr.LF; "User-Password=password123" ++ PyStr.LF].

(** A stream without a password line. *)
Definition stdin_no_password : list string := ["User-Name=jdoe" ++ PyStr.LF].

(** A stream whose password is a pair of double quotes. *)
Definition stdin_empty_password : list string :=
  ["User-Name=jdoe" ++ PyStr.LF;
   "User-Password=" ++ PyStr.quoted "" ++ PyStr.LF].

(** A provider that accepts both flow stages and answers the user query
    with [reply]. *)
Definition accepting (reply : http) : provider :=
  fun q =>
    match q with
    | GetUsers _ => reply
    | _ => Response 200 None
    end.

(** The body of the answer to the user query that lists [users]. *)
Definition found (users : list json) : http :=
  Response 200 (Some (JDict [("results", JList users)])).

Definition jdoe (active : bool) : json :=
  JDict [("username", JStr "jdoe");
         ("email", JStr "jdoe@example.org");
         ("groups", JList [JDict [("name", JStr "users")];
                           JDict [("name", JStr "vpn-users")]]);
         ("is_active", JBool active)].

Definition inactive_account : provider := accepting (found [jdoe false]).

Definition unknown_account : provider := accepting (found []).

(** A record whose groups are given by their ids, not as objects. *)
Definition group_ids_account : provider :=
  accepting (found [JDict [("username", JStr "jdoe");
                           ("groups", JList [JInt 7; JInt 9]);
                           ("is_active", JBool true)]]).

(** A record with a group that has no name. *)
Definition nameless_group_account : provider :=
  accepting (found [JDict [("username", JStr "jdoe");
                           ("groups", JList [JDict [("name", JStr "users")];
                                             JDict [("pk", JInt 9)]]);
                           ("is_active", JBool true)]]).

End Scenario.

Module MoreScenario.
Import Bridge Scenario.

(** A provider that refuses the identification stage. *)
Definition refusing_identification : provider :=
  fun q =>
    match q with
    | PostIdentification _ => Response 401 None
    | _ => Response 200 None
    end.

(** A provider that accepts the identification and refuses the password. *)
Definition refusing_password : provider :=
  fun q =>
    match q with
    | PostPassword _ => Response 401 None
    | _ => Response 200 None
    end.

Definition active_account : provider :=
  accepting (found [jdoe true]).

(** A stream that sets the password twice. *)
Definition stdin_twice : list string :=
  ["User-Name=jdoe" ++ PyStr.LF; "User-Password=first" ++ PyStr.LF;
   "User-Password=second" ++ PyStr.LF].

(** A process whose configuration file is not JSON. *)
Definition garbled : world :=
  with_config_file (Some {| data := Garbage; mode := 420 |}) boot.

(** A stand-in for the text of a value in an f-string: a string as it is. *)
Definition plain_format (j : json) : string :=
  match j with
  | JStr s => s
  | _ => ""
  end.

(** A form the setup page could post. *)
Definition setup_form : pydict string :=
  [("admin_email", "root@example.org");
   ("admin_password", "correct-horse-battery");
   ("admin_password_confirm", "correct-horse-battery");
   ("db_password", "P@ss1234");
   ("ldap_admin_password", "ldap-admin-pw");
   ("ldap_readonly_password", "ldap-reader-pw")].

(** A form whose confirmation differs. *)
Definition mistyped_form : pydict string :=
  [("admin_email", "root@example.org");
   ("admin_password", "correct-horse-battery");
   ("admin_password_confirm", "correct-horse-batterx");
   ("db_password", "P@ss1234");
   ("ldap_admin_password", "ldap-admin-pw");
   ("ldap_readonly_password", "ldap-reader-pw")].

(** The web application before the first setup. *)
Definition new_site : Setup.site :=
  {| Setup.process := boot;
     Setup.init_flag := false;
     Setup.env_secure := None;
     Setup.init_passwords_sh := None |}.

(** A builder of [app.py] and the process right after its creation. *)
Definition a_builder : App.ConfigurationBuilder App.Argon2PasswordHasher :=
  {| App.hasher := App.Argon2PasswordHasher_init stand_in; App.config := 1 |}.

Definition with_builder : world :=
  snd (App.ConfigurationBuilder_init (App.Argon2PasswordHasher_init stand_in) boot).

End MoreScenario.

(* ===================================================================== *)
(** ** Properties of the bridge *)
(* ===================================================================== *)

Section BridgeFacts.
Import Bridge.

Lemma strip_quotes_empty : PyStr.strip_quotes "" = "".
Proof. reflexivity. Qed.

(** A key is unset after the loop exactly when it was unset before and no
    line of the stream sets it. *)
Lemma read_attributes_None (k : string) (lines : list string) :
  forall attributes : gmap string string,
    read_attributes lines attributes !! k = None <->
    attributes !! k = None /\ has_key k lines = false.
Proof.
  induction lines as [|line rest IH]; intros attributes; simpl.
  - tauto.
  - unfold line_key.
    destruct (PyStr.contains_char "=" line).
    + destruct (PyStr.split_once "=" (PyStr.strip line)) as [key value] eqn:E.
      simpl. rewrite IH.
      destruct (String.eqb_spec key k) as [->|Hne].
      * rewrite lookup_insert_eq. simpl. split; [intros [? _]|intros [_ ?]]; discriminate.
      * rewrite lookup_insert_ne by done. simpl. tauto.
    + rewrite IH. simpl. tauto.
Qed.

Lemma read_attributes_missing (k : string) (lines : list string) :
  has_key k lines = false -> read_attributes lines ∅ !! k = None.
Proof.
  intros Hk. apply read_attributes_None. split; [apply lookup_empty | exact Hk].
Qed.

(** The run of [main] once the two values are known. *)
Lemma main_rejects_empty (p : provider) (stdin : list string) :
  PyStr.strip_quotes (default "" (read_attributes stdin ∅ !! "User-Name")) = "" \/
  PyStr.strip_quotes (default "" (read_attributes stdin ∅ !! "User-Password")) = "" ->
  main p stdin = (1%Z, start).
Proof.
  intros Hempty. unfold main.
  destruct Hempty as [-> | ->]; simpl.
  - reflexivity.
  - rewrite orb_true_r. reflexivity.
Qed.

(** C8.  A stream in which no line sets [User-Name], or no line sets
    [User-Password], makes the bridge exit with code 1; no request was
    sent to the identity provider and nothing was printed. *)
Theorem main_missing_key (p : provider) (stdin : list string) :
  has_key "User-Name" stdin = false \/ has_key "User-Password" stdin = false ->
  fst (main p stdin) = 1%Z /\
  calls (snd (main p stdin)) = [] /\
  stdout (snd (main p stdin)) = [].
Proof.
  intros Hmissing.
  assert (main p stdin = (1%Z, start)) as ->; [|done].
  apply main_rejects_empty.
  destruct Hmissing as [Hk | Hk]; [left | right];
    rewrite (read_attributes_missing _ _ Hk); reflexivity.
Qed.

Lemma main_missing_key_witness :
  has_key "User-Password" Scenario.stdin_no_password = false /\
  fst (main Scenario.inactive_account Scenario.stdin_no_password) = 1%Z /\
  calls (snd (main Scenario.inactive_account Scenario.stdin_no_password)) = [].
Proof.
  split; [reflexivity|].
  destruct (main_missing_key Scenario.inactive_account Scenario.stdin_no_password)
    as (Hexit & Hcalls & _); [right; reflexivity|].
  split; assumption.
Defined.

(** C10.  When both keys are set but one of the two values is empty once
    its leading and trailing double quotes are stripped, the bridge exits
    with code 1 and has sent no request: the run is the run on a stream
    that sets neither key. *)
Theorem main_empty_value (p : provider) (stdin : list string) (u pw : string) :
  read_attributes stdin ∅ !! "User-Name" = Some u ->
  read_attributes stdin ∅ !! "User-Password" = Some pw ->
  PyStr.strip_quotes u = "" \/ PyStr.strip_quotes pw = "" ->
  fst (main p stdin) = 1%Z /\
  calls (snd (main p stdin)) = [] /\
  main p stdin = main p [].
Proof.
  intros Hu Hpw Hempty.
  assert (main p stdin = (1%Z, start)) as ->; [|done].
  apply main_rejects_empty. rewrite Hu, Hpw. exact Hempty.
Qed.

Lemma main_empty_value_witness :
  fst (main Scenario.inactive_account Scenario.stdin_empty_password) = 1%Z /\
  calls (snd (main Scenario.inactive_account Scenario.stdin_empty_password)) = [].
Proof.
  destruct (main_empty_value Scenario.inactive_account Scenario.stdin_empty_password
              "jdoe" (PyStr.quoted ""))
    as (Hexit & Hcalls & _).
  - vm_compute. reflexivity.
  - vm_compute. reflexivity.
  - right. reflexivity.
  - split; assumption.
Defined.

Lemma truthy_nonempty (s : string) : s <> "" -> PyStr.truthy s = true.
Proof. destruct s; [congruence | reflexivity]. Qed.

(** [authenticate] when both flow stages answer 200: success, with
    whatever the user query gave. *)
Lemma authenticate_flow_success (p : provider) (username password : string)
      (b1 b2 : option json) (r : run) :
  p (PostIdentification username) = Response 200 b1 ->
  p (PostPassword password) = Response 200 b2 ->
  authenticate p username password r =
    ((true, details_of (p (GetUsers username))),
     {| calls := calls r ++ [PostIdentification username; PostPassword password;
                             GetUsers username];
        stdout := stdout r |}).
Proof.
  intros H1 H2. unfold authenticate, _get_user_details, send.
  rewrite H1. simpl. rewrite H2. simpl.
  rewrite <- !app_assoc. reflexivity.
Qed.

(** C1 (as the code has it).  When both flow stages answer 200 the three
    requests are sent and the run is decided by the list of group names
    alone; [is_active] is read nowhere.  When [_get_user_details] gives
    [None] (no answer, a status other than 200, no result, or a first
    result from which the dict cannot be built) the bridge prints nothing
    and exits with code 0.  When it gives a dict, for an active or an
    inactive account, the bridge prints the welcome line; it then exits
    with code 0 when there is no group, prints the [Class] line and exits
    with code 0 when every name is a string, and ends with code 1, the
    [Class] line not printed, when a name is not a string. *)
Theorem main_flow_success (p : provider) (stdin : list string)
        (username password : string) (b1 b2 : option json) :
  PyStr.strip_quotes (default "" (read_attributes stdin ∅ !! "User-Name")) = username ->
  PyStr.strip_quotes (default "" (read_attributes stdin ∅ !! "User-Password")) = password ->
  username <> "" -> password <> "" ->
  p (PostIdentification username) = Response 200 b1 ->
  p (PostPassword password) = Response 200 b2 ->
  let sent := [PostIdentification username; PostPassword password; GetUsers username] in
  let welcome := "Reply-Message = " ++ PyStr.quoted ("Welcome " ++ username) in
  (details_of (p (GetUsers username)) = None ->
   main p stdin = (0%Z, {| calls := sent; stdout := [] |})) /\
  (forall ud, details_of (p (GetUsers username)) = Some ud ->
     (groups ud = [] ->
      main p stdin = (0%Z, {| calls := sent; stdout := [welcome] |})) /\
     (forall names, groups ud <> [] -> all_names (groups ud) = Some names ->
      main p stdin =
        (0%Z, {| calls := sent;
                 stdout := [welcome; "Class = " ++ PyStr.quoted (PyStr.join "," names)] |})) /\
     (all_names (groups ud) = None ->
      main p stdin = (1%Z, {| calls := sent; stdout := [welcome] |}))).
Proof.
  intros Hu Hpw Hune Hpne H1 H2 sent welcome.
  assert (main p stdin =
            match details_of (p (GetUsers username)) with
            | Some ud =>
                match groups ud with
                | [] => (0%Z, {| calls := sent; stdout := [welcome] |})
                | gs =>
                    match all_names gs with
                    | Some names =>
                        (0%Z, {| calls := sent;
                                 stdout := [welcome;
                                            "Class = " ++ PyStr.quoted (PyStr.join "," names)] |})
                    | None => (1%Z, {| calls := sent; stdout := [welcome] |})
                    end
                end
            | None => (0%Z, {| calls := sent; stdout := [] |})
            end) as Hm.
  { unfold main. rewrite Hu, Hpw.
    rewrite (truthy_nonempty _ Hune), (truthy_nonempty _ Hpne). simpl.
    rewrite (authenticate_flow_success _ _ _ _ _ _ H1 H2).
    destruct (details_of (p (GetUsers username))) as [ud|]; [|reflexivity].
    destruct (groups ud) as [|g gs]; [reflexivity|].
    destruct (all_names (g :: gs)); reflexivity. }
  split.
  - intros Hnone. rewrite Hm, Hnone. reflexivity.
  - intros ud Hsome. rewrite Hm, Hsome. split; [|split].
    + intros ->. reflexivity.
    + intros names. destruct (groups ud) as [|g gs]; [congruence|].
      intros _ ->. reflexivity.
    + destruct (groups ud) as [|g gs]; [discriminate|].
      intros ->. reflexivity.
Qed.

Lemma main_flow_success_witness :
  main Scenario.unknown_account Scenario.stdin_jdoe =
    (0%Z, {| calls := [PostIdentification "jdoe"; PostPassword "password123";
                       GetUsers "jdoe"];
             stdout := [] |}) /\
  main Scenario.group_ids_account Scenario.stdin_jdoe =
    (0%Z, {| calls := [PostIdentification "jdoe"; PostPassword "password123";
                       GetUsers "jdoe"];
             stdout := [] |}) /\
  main Scenario.nameless_group_account Scenario.stdin_jdoe =
    (1%Z, {| calls := [PostIdentification "jdoe"; PostPassword "password123";
                       GetUsers "jdoe"];
             stdout := ["Reply-Message = " ++ PyStr.quoted "Welcome jdoe"] |}).
Proof.
  split; [|split].
  - apply (main_flow_success Scenario.unknown_account Scenario.stdin_jdoe
             "jdoe" "password123" None None); try reflexivity; congruence.
  - apply (main_flow_success Scenario.group_ids_account Scenario.stdin_jdoe
             "jdoe" "password123" None None); try reflexivity; congruence.
  - assert ("jdoe" <> "") as Hu by discriminate.
    assert ("password123" <> "") as Hp by discriminate.
    destruct (main_flow_success Scenario.nameless_group_account Scenario.stdin_jdoe
                "jdoe" "password123" None None eq_refl eq_refl Hu Hp eq_refl eq_refl)
      as [_ Hfound].
    destruct (Hfound {| username_of := JStr "jdoe"; email_of := JNull;
                        groups := [JStr "users"; JNull];
                        is_active := JBool true; attributes := JDict [] |} eq_refl)
      as (_ & _ & Hnameless).
    apply Hnameless. reflexivity.
Defined.

(** C1 fails as stated: both stages succeed and the user query reports
    [is_active] false, yet the exit code is 0 and a [Class] line is printed. *)
Lemma main_inactive_accepted :
  main Scenario.inactive_account Scenario.stdin_jdoe =
    (0%Z, {| calls := [PostIdentification "jdoe"; PostPassword "password123";
                       GetUsers "jdoe"];
             stdout := ["Reply-Message = " ++ PyStr.quoted "Welcome jdoe";
                        "Class = " ++ PyStr.quoted "users,vpn-users"] |}) /\
  option_map is_active (details_of (Scenario.inactive_account (GetUsers "jdoe")))
    = Some (JBool false).
Proof. split; reflexivity. Qed.

End BridgeFacts.

(* ===================================================================== *)
(** ** Properties of the dictionaries *)
(* ===================================================================== *)

Section DictFacts.
Context {V : Type}.
Implicit Types (d : pydict V) (k : string) (v : V).

Lemma get_set_eq k v d : Dict.get k (Dict.set k v d) = Some v.
Proof.
  induction d as [|[k' v'] d IH]; simpl.
  - rewrite String.eqb_refl. reflexivity.
  - destruct (String.eqb k k') eqn:E; simpl; rewrite E; [reflexivity | exact IH].
Qed.

Lemma get_set_ne k k' v d : k <> k' -> Dict.get k' (Dict.set k v d) = Dict.get k' d.
Proof.
  intros Hne. induction d as [|[k0 v0] d IH]; simpl.
  - destruct (String.eqb_spec k' k); [congruence | reflexivity].
  - destruct (String.eqb_spec k k0) as [->|Hk]; simpl.
    + destruct (String.eqb_spec k' k0); [congruence | reflexivity].
    + destruct (String.eqb k' k0); [reflexivity | exact IH].
Qed.

Lemma get_del_eq k d : Dict.get k (Dict.del k d) = None.
Proof.
  induction d as [|[k' v'] d IH]; simpl; [reflexivity|].
  destruct (String.eqb k k') eqn:E; simpl; [exact IH | rewrite E; exact IH].
Qed.

Lemma get_del_None k k' d : Dict.get k d = None -> Dict.get k (Dict.del k' d) = None.
Proof.
  induction d as [|[k0 v0] d IH]; simpl; [reflexivity|].
  destruct (String.eqb k k0) eqn:E; [discriminate|]. intros Hd.
  destruct (String.eqb k' k0); simpl; [|rewrite E]; auto.
Qed.

Lemma get_In k v d : Dict.get k d = Some v -> In (k, v) d.
Proof.
  induction d as [|[k' v'] d IH]; simpl; [discriminate|].
  destruct (String.eqb_spec k k') as [->|Hne].
  - intros [= ->]. left. reflexivity.
  - intros Hd. right. auto.
Qed.

Lemma has_get k d : Dict.has k d = match Dict.get k d with Some _ => true | None => false end.
Proof. reflexivity. Qed.

End DictFacts.

(* ===================================================================== *)
(** ** Properties of the repository and of the service *)
(* ===================================================================== *)

Section RepositoryFacts.
Import PasswordManager.
Variable lib : Argon2.library.
Variable upper : string -> string.

Lemma keeps_cache_ret {A} (a : A) : keeps_cache (ret a).
Proof. intros w. reflexivity. Qed.

Lemma keeps_cache_raise {A} (e : exn) : keeps_cache (@raise A e).
Proof. intros w. reflexivity. Qed.

Lemma keeps_cache_lift {A} (r : result A) : keeps_cache (lift r).
Proof. intros w. reflexivity. Qed.

Lemma keeps_cache_bind {A B} (m : M A) (k : A -> M B) :
  keeps_cache m -> (forall a, keeps_cache (k a)) -> keeps_cache (bind m k).
Proof.
  intros Hm Hk w. unfold bind. specialize (Hm w).
  destruct (m w) as [[a|e] w']; simpl in *.
  - rewrite Hk. exact Hm.
  - exact Hm.
Qed.

Lemma keeps_cache_load : keeps_cache _load_config.
Proof.
  intros w. unfold _load_config.
  destruct (config_file w) as [f|]; [|reflexivity].
  destruct (data f); reflexivity.
Qed.

Lemma fs_exec_cache (w : world) (s : fs_step) :
  _temp_passwords (fs_exec w s) = _temp_passwords w.
Proof.
  destruct s as [|config|config|m]; simpl; destruct (config_file w);
    try destruct config; reflexivity.
Qed.

Lemma keeps_cache_save (config : json) : keeps_cache (_save_config config).
Proof.
  intros w. unfold _save_config, _save_config_steps. cbn [snd fold_left].
  rewrite !fs_exec_cache. reflexivity.
Qed.

Lemma keeps_cache_draw : keeps_cache draw.
Proof. intros w. reflexivity. Qed.

Create HintDb cache.
Create HintDb files.

#[local] Hint Resolve keeps_cache_ret keeps_cache_raise keeps_cache_lift
  keeps_cache_load keeps_cache_save keeps_cache_draw : cache.

Ltac keeps :=
  repeat first
    [ apply keeps_cache_bind; [ | intros ? ]
    | match goal with |- keeps_cache (if ?b then _ else _) => destruct b end
    | match goal with |- keeps_cache (match ?x with _ => _ end) => destruct x end
    | solve [ auto with cache ] ].

Lemma keeps_cache_store (s u h : string) : keeps_cache (store_password s u h).
Proof. unfold store_password. keeps. Qed.

Lemma keeps_cache_verify (s u p : string) : keeps_cache (verify_password lib s u p).
Proof. unfold verify_password. keeps. Qed.

Lemma same_but_cache_fields (w w' : world) :
  same_but_cache w w' ->
  entropy w = entropy w' /\ drawn w = drawn w' /\ umask w = umask w' /\
  config_file w = config_file w' /\ heap w = heap w'.
Proof.
  unfold same_but_cache. intros Hww.
  repeat split;
    [ apply (f_equal entropy) in Hww | apply (f_equal drawn) in Hww
    | apply (f_equal umask) in Hww | apply (f_equal config_file) in Hww
    | apply (f_equal heap) in Hww ]; exact Hww.
Qed.

Lemma cache_independent_ret {A} (a : A) : cache_independent (ret a).
Proof. intros w w' Hww. split; [reflexivity | exact Hww]. Qed.

Lemma cache_independent_raise {A} (e : exn) : cache_independent (@raise A e).
Proof. intros w w' Hww. split; [reflexivity | exact Hww]. Qed.

Lemma cache_independent_lift {A} (r : result A) : cache_independent (lift r).
Proof. intros w w' Hww. split; [reflexivity | exact Hww]. Qed.

Lemma cache_independent_bind {A B} (m : M A) (k : A -> M B) :
  cache_independent m -> (forall a, cache_independent (k a)) ->
  cache_independent (bind m k).
Proof.
  intros Hm Hk w w' Hww. unfold bind.
  destruct (Hm w w' Hww) as [Hfst Hsnd].
  destruct (m w) as [[a|e] w1], (m w') as [[a'|e'] w1']; simpl in *;
    try discriminate.
  - injection Hfst as ->. apply Hk. exact Hsnd.
  - split; [congruence | exact Hsnd].
Qed.

Lemma cache_independent_load : cache_independent _load_config.
Proof.
  intros w w' Hww. unfold _load_config.
  destruct (same_but_cache_fields w w' Hww) as (_ & _ & _ & <- & _).
  destruct (config_file w) as [f|]; [destruct (data f)|]; simpl;
    (split; [reflexivity | exact Hww]).
Qed.

Lemma save_config_effect (config : json) (w : world) :
  _save_config config w =
    (Ret tt, with_config_file (Some {| data := Dump config; mode := 384 |}) w).
Proof.
  unfold _save_config, _save_config_steps, with_config_file. simpl.
  destruct (config_file w), config; reflexivity.
Qed.

Lemma cache_independent_save (config : json) : cache_independent (_save_config config).
Proof.
  intros w w' Hww. rewrite !save_config_effect. simpl.
  split; [reflexivity|]. unfold same_but_cache in *.
  change (with_config_file (Some {| data := Dump config; mode := 384 |})
            (with_temp_passwords [] w) =
          with_config_file (Some {| data := Dump config; mode := 384 |})
            (with_temp_passwords [] w')).
  rewrite Hww. reflexivity.
Qed.

Lemma cache_independent_draw : cache_independent draw.
Proof.
  intros w w' Hww. unfold draw. simpl.
  destruct (same_but_cache_fields w w' Hww) as (He & Hd & _).
  split; [rewrite He, Hd; reflexivity|]. unfold same_but_cache in *.
  change (with_drawn (S (drawn w)) (with_temp_passwords [] w) =
          with_drawn (S (drawn w')) (with_temp_passwords [] w')).
  rewrite Hww, Hd. reflexivity.
Qed.

(** A step that rewrites the cache alone. *)
Lemma cache_independent_cache {A} (a : A)
      (f : world -> pydict (pydict string)) :
  cache_independent (fun w => (Ret a, with_temp_passwords (f w) w)).
Proof. intros w w' Hww. split; [reflexivity | exact Hww]. Qed.

#[local] Hint Resolve cache_independent_ret cache_independent_raise
  cache_independent_lift cache_independent_load cache_independent_save
  cache_independent_draw : files.

Ltac independent :=
  repeat first
    [ apply cache_independent_bind; [ | intros ? ]
    | match goal with |- cache_independent (if ?b then _ else _) => destruct b end
    | match goal with |- cache_independent (match ?x with _ => _ end) => destruct x end
    | solve [ auto with files ] ].

Lemma cache_independent_store (s u h : string) :
  cache_independent (store_password s u h).
Proof. unfold store_password. independent. Qed.

Lemma cache_independent_verify (s u p : string) :
  cache_independent (verify_password lib s u p).
Proof. unfold verify_password. independent. Qed.

Lemma cache_independent_update (s u h : string) :
  cache_independent (update_password s u h).
Proof.
  unfold update_password. apply cache_independent_bind.
  - apply cache_independent_store.
  - intros _. apply (cache_independent_cache tt).
Qed.

Lemma cache_independent_set (s u p : string) :
  cache_independent (set_temporary_password s u p).
Proof.
  apply (cache_independent_cache tt
           (fun w =>
              let t := _temp_passwords w in
              let t := if Dict.has s t then t else Dict.set s [] t in
              Dict.set s (Dict.set u p (default [] (Dict.get s t))) t)).
Qed.

Lemma cache_independent_initialize (s u p : string) :
  cache_independent (initialize_service_password lib s u p).
Proof.
  unfold initialize_service_password.
  apply cache_independent_bind; [apply cache_independent_draw | intros salt].
  apply cache_independent_bind; [apply cache_independent_store | intros _].
  apply cache_independent_set.
Qed.

Lemma cache_independent_update_service (s u p : string) :
  cache_independent (update_service_password lib s u p).
Proof.
  unfold update_service_password.
  apply cache_independent_bind; [apply cache_independent_draw | intros salt].
  apply cache_independent_update.
Qed.

(** Removing an entry of the cache stages nothing. *)
Lemma staged_del (s u s' u' : string) (t : pydict (pydict string)) (users : pydict string) :
  Dict.get s' t = Some users ->
  staged s u t = None ->
  staged s u (Dict.set s' (Dict.del u' users) t) = None.
Proof.
  unfold staged. intros Hs' Hnone.
  destruct (String.eqb_spec s' s) as [->|Hne].
  - rewrite get_set_eq. rewrite Hs' in Hnone. apply get_del_None. exact Hnone.
  - rewrite get_set_ne by exact Hne. exact Hnone.
Qed.

Lemma staged_clear (s u s' u' : string) (t : pydict (pydict string)) :
  staged s u t = None -> staged s u (clear_temporary s' u' t) = None.
Proof.
  intros Hnone. unfold clear_temporary.
  destruct (Dict.get s' t) as [users|] eqn:Hs'; [|exact Hnone].
  destruct (Dict.has u' users); [|exact Hnone].
  apply staged_del; assumption.
Qed.

(** What [set_temporary_password] leaves in the cache. *)
Lemma staged_set (s u s' u' p : string) (w : world) :
  staged s u (_temp_passwords (snd (set_temporary_password s' u' p w))) =
    if String.eqb s' s && String.eqb u' u then Some p
    else staged s u (_temp_passwords w).
Proof.
  unfold set_temporary_password, staged. cbn [snd _temp_passwords with_temp_passwords].
  set (t := _temp_passwords w).
  destruct (String.eqb_spec s' s) as [->|Hs]; cbn [andb].
  - rewrite get_set_eq. rewrite has_get.
    destruct (Dict.get s t) as [users|] eqn:Ht; cbn [default].
    + rewrite Ht. cbn [default].
      destruct (String.eqb_spec u' u) as [->|Hu].
      * apply get_set_eq.
      * apply get_set_ne. exact Hu.
    + rewrite get_set_eq. cbn [default].
      destruct (String.eqb_spec u' u) as [->|Hu].
      * apply get_set_eq.
      * rewrite get_set_ne by exact Hu. reflexivity.
  - rewrite get_set_ne by exact Hs.
    destruct (Dict.has s' t); [reflexivity|].
    rewrite get_set_ne by exact Hs. reflexivity.
Qed.

(** What [get_temporary_password] returns and leaves. *)
Lemma get_temporary_password_spec (s u : string) (w : world) :
  fst (get_temporary_password s u w) = Ret (staged s u (_temp_passwords w)) /\
  staged s u (_temp_passwords (snd (get_temporary_password s u w))) = None.
Proof.
  unfold get_temporary_password, staged.
  destruct (Dict.get s (_temp_passwords w)) as [users|] eqn:Hs.
  - destruct (Dict.get u users) as [p|] eqn:Hu; simpl.
    + split; [reflexivity|]. rewrite get_set_eq. apply get_del_eq.
    + rewrite Hs. auto.
  - simpl. rewrite Hs. auto.
Qed.

Lemma get_temporary_password_other (s u s' u' : string) (w : world) :
  staged s u (_temp_passwords w) = None ->
  staged s u (_temp_passwords (snd (get_temporary_password s' u' w))) = None.
Proof.
  intros Hnone. unfold get_temporary_password.
  destruct (Dict.get s' (_temp_passwords w)) as [users|] eqn:Hs'; [|exact Hnone].
  destruct (Dict.get u' users) as [p|]; [|exact Hnone].
  simpl. apply staged_del; assumption.
Qed.

Lemma keeps_cache_bind_snd {A B} (m : M A) (k : A -> M B) (w : world) :
  keeps_cache m ->
  _temp_passwords (snd (bind m k w)) = _temp_passwords w \/
  exists a w', _temp_passwords w' = _temp_passwords w /\ snd (bind m k w) = snd (k a w').
Proof.
  intros Hm. unfold bind. specialize (Hm w).
  destruct (m w) as [[a|e] w']; simpl in *; eauto.
Qed.

(** A call that does not stage a plaintext for a key leaves the key empty
    if it was. *)
Lemma perform_unstaged (s u : string) (op : operation) (w : world) :
  stages s u op = false ->
  staged s u (_temp_passwords w) = None ->
  staged s u (_temp_passwords (perform lib upper w op)) = None.
Proof.
  intros Hop Hnone. destruct op; cbn [perform stages] in *.
  - rewrite keeps_cache_store. exact Hnone.
  - rewrite keeps_cache_verify. exact Hnone.
  - unfold update_password.
    destruct (keeps_cache_bind_snd (store_password service username new_password_hash)
                (fun _ w => (Ret tt, with_temp_passwords
                     (clear_temporary service username (_temp_passwords w)) w)) w
                (keeps_cache_store _ _ _)) as [-> | (a & w' & Hw' & ->)];
      [exact Hnone|].
    simpl. apply staged_clear. rewrite Hw'. exact Hnone.
  - rewrite staged_set, Hop. exact Hnone.
  - apply get_temporary_password_other. exact Hnone.
  - exact Hnone.
  - unfold initialize_service_password.
    destruct (keeps_cache_bind_snd draw
                (fun salt => bind (store_password service username
                     (Argon2.hash_secret lib (Argon2.default_params lib) salt password))
                   (fun _ => set_temporary_password service username password)) w
                keeps_cache_draw) as [-> | (salt & w1 & Hw1 & ->)]; [exact Hnone|].
    destruct (keeps_cache_bind_snd (store_password service username
                     (Argon2.hash_secret lib (Argon2.default_params lib) salt password))
                (fun _ => set_temporary_password service username password) w1
                (keeps_cache_store _ _ _)) as [-> | (a & w2 & Hw2 & ->)].
    + rewrite Hw1. exact Hnone.
    + rewrite staged_set, Hop, Hw2, Hw1. exact Hnone.
  - unfold verify_service_password. rewrite keeps_cache_verify. exact Hnone.
  - unfold update_service_password.
    destruct (keeps_cache_bind_snd draw
                (fun salt => update_password service username
                     (Argon2.hash_secret lib (Argon2.default_params lib) salt new_password)) w
                keeps_cache_draw) as [-> | (salt & w1 & Hw1 & ->)]; [exact Hnone|].
    unfold update_password.
    match goal with |- context [bind ?m ?k w1] =>
      destruct (keeps_cache_bind_snd m k w1 (keeps_cache_store _ _ _))
        as [-> | (a & w2 & Hw2 & ->)]
    end.
    + rewrite Hw1. exact Hnone.
    + simpl. apply staged_clear. rewrite Hw2, Hw1. exact Hnone.
  - exact Hnone.
Qed.

Lemma perform_all_unstaged (s u : string) (ops : list operation) :
  forall w,
    forallb (fun op => negb (stages s u op)) ops = true ->
    staged s u (_temp_passwords w) = None ->
    staged s u (_temp_passwords (perform_all lib upper ops w)) = None.
Proof.
  induction ops as [|op ops IH]; intros w Hops Hnone; simpl in *; [exact Hnone|].
  apply andb_true_iff in Hops as [Hop Hops].
  apply IH; [exact Hops|].
  apply perform_unstaged; [|exact Hnone].
  destruct (stages s u op); [discriminate | reflexivity].
Qed.

(** C4.  When the cache holds a plaintext for a key, the take-once accessor
    returns it and removes the entry; after that, and after any further
    calls of the repository or the service that stage no new value for the
    key, the accessor returns [None] for the key. *)
Theorem take_once (s u p : string) (w : world) :
  staged s u (_temp_passwords w) = Some p ->
  fst (get_temporary_password s u w) = Ret (Some p) /\
  staged s u (_temp_passwords (snd (get_temporary_password s u w))) = None /\
  forall ops,
    forallb (fun op => negb (stages s u op)) ops = true ->
    fst (get_temporary_password s u
           (perform_all lib upper ops (snd (get_temporary_password s u w)))) = Ret None.
Proof.
  intros Hp.
  destruct (get_temporary_password_spec s u w) as [Hret Hgone].
  rewrite Hp in Hret. repeat split; [exact Hret | exact Hgone |].
  intros ops Hops.
  destruct (get_temporary_password_spec s u
              (perform_all lib upper ops (snd (get_temporary_password s u w)))) as [-> _].
  f_equal. apply perform_all_unstaged; assumption.
Qed.

(** [store_password] on a store that accepts the service: it returns, and
    the file then holds a dict that binds the service to a dict that binds
    the user's key to the hash. *)
Lemma store_password_effect (s u h : string) (w : world) :
  accepts_service s w = true ->
  exists d sec,
    store_password s u h w =
      (Ret tt, with_config_file (Some {| data := Dump (JDict d); mode := 384 |}) w) /\
    Dict.get s d = Some (JDict sec) /\
    Dict.get (u ++ "_password_hash") sec = Some (JStr h).
Proof.
  unfold accepts_service. intros Hacc.
  assert (exists d0, _load_config w = (Ret (JDict d0), w) /\
                     (Dict.get s d0 = None \/ exists sec0, Dict.get s d0 = Some (JDict sec0)))
    as (d0 & Hload & Hd0).
  { unfold _load_config. destruct (config_file w) as [f|].
    - destruct (data f) as [|[| | | | |d0]| |d1]; try discriminate.
      exists d0. split; [reflexivity|].
      destruct (Dict.get s d0) as [[| | | | |sec0]|]; try discriminate; eauto.
    - exists []. split; [reflexivity | left; reflexivity]. }
  unfold store_password, bind. rewrite Hload.
  unfold lift, Py.contains. rewrite has_get.
  destruct Hd0 as [Hnone | (sec0 & Hsome)].
  - rewrite Hnone. cbn [negb Py.setitem Py.getitem ret].
    rewrite get_set_eq. cbn [Py.setitem]. rewrite save_config_effect.
    eexists _, _. split; [reflexivity|]. split; apply get_set_eq.
  - rewrite Hsome. cbn [negb Py.setitem Py.getitem ret]. rewrite Hsome.
    cbn [Py.setitem]. rewrite save_config_effect.
    eexists _, _. split; [reflexivity|]. split; apply get_set_eq.
Qed.

(** On any other store [store_password] raises and changes nothing. *)
Lemma store_password_rejected (s u h : string) (w : world) :
  accepts_service s w = false ->
  exists e, store_password s u h w = (Raise e, w).
Proof.
  unfold accepts_service, store_password, bind, _load_config, lift, ret.
  destruct (config_file w) as [f|]; [|discriminate].
  destruct (data f) as [|j| |d1]; eauto.
  destruct j as [| | |s0|l|d]; cbn [Py.contains]; eauto.
  - destruct (PyStr.contains s s0); cbn [negb Py.setitem Py.getitem]; eauto.
  - destruct (existsb _ l); cbn [negb Py.setitem Py.getitem]; eauto.
  - rewrite has_get. intros Hacc.
    destruct (Dict.get s d) as [v|] eqn:Hv; [|discriminate].
    cbn [negb Py.getitem]. rewrite Hv.
    destruct v; try discriminate; cbn [Py.setitem]; eauto.
Qed.

(** The order of [initialize_service_password]: the hash is made and stored
    before the plaintext is staged, so a store that rejects the service
    leaves the cache as it was. *)
Lemma initialize_rejected (s u p : string) (w : world) :
  accepts_service s w = false ->
  exists e,
    initialize_service_password lib s u p w = (Raise e, with_drawn (S (drawn w)) w).
Proof.
  intros Hacc.
  destruct (store_password_rejected s u
              (Argon2.hash_secret lib (Argon2.default_params lib) (entropy w (drawn w)) p)
              (with_drawn (S (drawn w)) w) Hacc) as [e He].
  exists e. unfold initialize_service_password, bind, draw. rewrite He. reflexivity.
Qed.

(** [verify_password] when the file binds the key to a hash string. *)
Lemma verify_password_stored (s u p h : string) (d sec : pydict json) (m : N) (w : world) :
  config_file w = Some {| data := Dump (JDict d); mode := m |} ->
  Dict.get s d = Some (JDict sec) ->
  Dict.get (u ++ "_password_hash") sec = Some (JStr h) ->
  fst (verify_password lib s u p w) =
    match Argon2.verify lib h p with
    | Ret _ => Ret true
    | Raise VerifyMismatchError => Ret false
    | Raise e => Raise e
    end.
Proof.
  intros Hfile Hs Hu.
  unfold verify_password, bind, _load_config. rewrite Hfile.
  cbn [data lift Py.contains]. rewrite has_get, Hs. cbn [negb Py.getitem].
  rewrite Hs. cbn [Py.contains]. rewrite has_get, Hu. cbn [negb Py.getitem].
  rewrite Hu.
  destruct (Argon2.verify lib h p) as [b|[]]; reflexivity.
Qed.

(** C6.  With a library that verifies the hashes it produces, and a store
    that accepts the service, [initialize_service_password] returns; after
    it [verify_password] returns [True] for the plaintext, the first
    take-once retrieval yields the plaintext and the second yields [None]. *)
Theorem initialize_then_verify (s u p : string) (w : world) :
  Argon2.sound lib ->
  accepts_service s w = true ->
  exists w1,
    initialize_service_password lib s u p w = (Ret tt, w1) /\
    fst (verify_password lib s u p w1) = Ret true /\
    exists w2,
      get_temporary_password s u w1 = (Ret (Some p), w2) /\
      fst (get_temporary_password s u w2) = Ret None.
Proof.
  intros Hsound Hacc.
  set (h := Argon2.hash_secret lib (Argon2.default_params lib) (entropy w (drawn w)) p).
  destruct (store_password_effect s u h (with_drawn (S (drawn w)) w))
    as (d & sec & Hstore & Hs & Hu); [exact Hacc|].
  set (w0 := with_config_file (Some {| data := Dump (JDict d); mode := 384 |})
               (with_drawn (S (drawn w)) w)) in *.
  exists (snd (set_temporary_password s u p w0)).
  split; [|split].
  - unfold initialize_service_password, bind, draw. fold h. rewrite Hstore.
    reflexivity.
  - destruct (cache_independent_verify s u p (snd (set_temporary_password s u p w0)) w0)
      as [-> _]; [reflexivity|].
    rewrite (verify_password_stored s u p h d sec 384 w0 eq_refl Hs Hu).
    unfold h. rewrite Hsound. reflexivity.
  - exists (snd (get_temporary_password s u (snd (set_temporary_password s u p w0)))).
    destruct (get_temporary_password_spec s u (snd (set_temporary_password s u p w0)))
      as [Hret Hgone].
    rewrite staged_set, !String.eqb_refl in Hret. cbn [andb] in Hret.
    split.
    + rewrite <- Hret. apply surjective_pairing.
    + destruct (get_temporary_password_spec s u
        (snd (get_temporary_password s u (snd (set_temporary_password s u p w0)))))
        as [-> _].
      rewrite Hgone. reflexivity.
Qed.

Lemma script_lines_staged (s u p : string) (t : pydict (pydict string)) :
  staged s u t = Some p ->
  In ("export " ++ upper s ++ "_" ++ upper u ++ "_TEMP_PASS='" ++ p ++ "'")
     (script_lines upper t).
Proof.
  unfold staged, script_lines. intros Hp.
  destruct (Dict.get s t) as [users|] eqn:Hs; [|discriminate].
  apply in_or_app. right. apply in_flat_map.
  exists (s, users). split; [apply get_In; exact Hs|].
  apply in_map_iff. exists (u, p). split; [reflexivity | apply get_In; exact Hp].
Qed.

(** C2 (as the code has it).  A staged plaintext is reachable through the
    take-once accessor and through two more public methods:
    [generate_initialization_script] returns a script with one export line
    per staged plaintext, the plaintext written out in it, and
    [get_initialization_passwords] returns the whole cache.  The result of
    every other method of the repository and of the service, and what it
    leaves outside the cache, do not depend on what the cache holds. *)
Theorem plaintext_reach (w : world) :
  (forall s u p,
     staged s u (_temp_passwords w) = Some p ->
     In ("export " ++ upper s ++ "_" ++ upper u ++ "_TEMP_PASS='" ++ p ++ "'")
        (script_lines upper (_temp_passwords w))) /\
  fst (generate_initialization_script upper w) =
    Ret (PyStr.join PyStr.LF (script_lines upper (_temp_passwords w))) /\
  fst (get_initialization_passwords w) = Ret (_temp_passwords w) /\
  (forall s u x,
     cache_independent (store_password s u x) /\
     cache_independent (verify_password lib s u x) /\
     cache_independent (update_password s u x) /\
     cache_independent (set_temporary_password s u x) /\
     cache_independent (initialize_service_password lib s u x) /\
     cache_independent (verify_service_password lib s u x) /\
     cache_independent (update_service_password lib s u x)).
Proof.
  split; [|split; [|split]].
  - intros s u p. apply script_lines_staged.
  - reflexivity.
  - reflexivity.
  - intros s u x.
    pose proof (cache_independent_verify s u x).
    auto 10 using cache_independent_store, cache_independent_update,
      cache_independent_set, cache_independent_initialize,
      cache_independent_update_service.
Qed.

(** [store_password] writes the file through [_save_config] or not at all. *)
Lemma store_password_writes (s u h : string) (w : world) :
  (exists e, store_password s u h w = (Raise e, w)) \/
  (exists config, store_password s u h w = _save_config config w).
Proof.
  unfold store_password, bind, _load_config, lift, ret.
  destruct (config_file w) as [f|]; [destruct (data f) as [|j| |d1]|]; eauto.
  - destruct (Py.contains s j) as [[]|e]; eauto.
    + destruct (Py.getitem j s) as [sec|e]; eauto.
      destruct (Py.setitem sec _ _) as [sec'|e]; eauto.
      destruct (Py.setitem j s sec') as [j'|e]; eauto.
    + destruct (Py.setitem j s (JDict [])) as [j0|e]; eauto.
      destruct (Py.getitem j0 s) as [sec|e]; eauto.
      destruct (Py.setitem sec _ _) as [sec'|e]; eauto.
      destruct (Py.setitem j0 s sec') as [j'|e]; eauto.
  - right. eexists. simpl. rewrite String.eqb_refl. simpl. reflexivity.
Qed.



End RepositoryFacts.

(* ===================================================================== *)
(** ** Properties of the hashing strategy and of the builder *)
(* ===================================================================== *)

Section AppFacts.
Import App.

(** C5 (as the code has it).  Both [verify_password] methods return [True]
    when the library verifies the password against the hash and [False]
    when it raises [VerifyMismatchError]; any other exception of the library
    reaches the caller.  A string of ASCII characters that does not begin
    with an Argon2 header is such a case: [InvalidHashError]. *)
Theorem verify_password_outcome (self : Argon2PasswordHasher)
        (password hash : string) (w : world) :
  let outcome :=
    match Argon2.verify (lib self) hash password with
    | Ret _ => Ret true
    | Raise VerifyMismatchError => Ret false
    | Raise e => Raise e
    end in
  verify_password self password hash w = (outcome, w) /\
  (forall s u d sec m,
     config_file w = Some {| data := Dump (JDict d); mode := m |} ->
     Dict.get s d = Some (JDict sec) ->
     Dict.get (u ++ "_password_hash") sec = Some (JStr hash) ->
     fst (PasswordManager.verify_password (lib self) s u password w) = outcome) /\
  (Argon2.is_ascii hash = true -> Argon2.known_header hash = false ->
   outcome = Raise InvalidHashError).
Proof.
  intros outcome. subst outcome. split; [|split].
  - cbn [verify_password Argon2_hasher]. unfold argon2_verify_password.
    destruct (Argon2.verify (lib self) hash password) as [b|[]]; try reflexivity.
    destruct (Argon2.needs_rehash (lib self) (ph self) hash); reflexivity.
  - intros s u d sec m Hfile Hs Hu.
    apply (verify_password_stored (lib self) s u password hash d sec m w Hfile Hs Hu).
  - intros Hascii Hheader. unfold Argon2.verify. rewrite Hascii, Hheader. reflexivity.
Qed.

(** What a setter does to the builder's dict. *)
Lemma invoke_effect (self : ConfigurationBuilder Argon2PasswordHasher)
      (c : setter_call) (agg : pydict json) (w : world) :
  heap w !! config self = Some agg ->
  exists w' d1 d2,
    invoke self c w = (Ret self, w') /\
    heap w' = <[config self :=
                  Dict.set (section_key c) (section_of (hasher self) c d1 d2) agg]>
                (heap w).
Proof.
  intros Hagg.
  destruct c; cbn [invoke];
    unfold set_admin_credentials, set_database_credentials, set_ldap_configuration,
      set_radius_configuration, set_security_keys;
    cbn [hash_password Argon2_hasher]; unfold argon2_hash_password, bind, draw, ret,
      config_set; cbn [heap with_drawn]; rewrite Hagg;
    eexists _, (entropy w (drawn w)), (entropy w (S (drawn w)));
    (split; [reflexivity|]); reflexivity.
Qed.

(** What [build] does: it sets one key and returns the builder's own dict. *)
Lemma build_effect {H : Type} (self : ConfigurationBuilder H) (agg : pydict json)
      (w : world) :
  heap w !! config self = Some agg ->
  build self w =
    (Ret (config self),
     with_heap (<[config self := Dict.set "initialized" (JBool true) agg]> (heap w)) w).
Proof.
  intros Hagg. unfold build, bind, config_set. rewrite Hagg. reflexivity.
Qed.

Lemma assembled_from_set (self : Argon2PasswordHasher) (b : bool)
      (cs : list setter_call) (c : setter_call) (d1 d2 : string) (d : pydict json) :
  assembled_from self b cs d ->
  assembled_from self b (cs ++ [c])
    (Dict.set (section_key c) (section_of self c d1 d2) d).
Proof.
  intros Hd k v Hk.
  destruct (String.eqb_spec (section_key c) k) as [<-|Hne].
  - rewrite get_set_eq in Hk. injection Hk as <-.
    right. exists c, d1, d2. split; [apply in_or_app; right; left; reflexivity | auto].
  - rewrite get_set_ne in Hk by exact Hne.
    destruct (Hd k v Hk) as [Hinit | (c' & e1 & e2 & Hin & Hkey & Hv)]; [left; exact Hinit|].
    right. exists c', e1, e2. split; [apply in_or_app; left; exact Hin | auto].
Qed.

Lemma invoke_all_assembled (self : ConfigurationBuilder Argon2PasswordHasher)
      (b : bool) (cs : list setter_call) :
  forall (done : list setter_call) (agg : pydict json) (w : world),
    heap w !! config self = Some agg ->
    assembled_from (hasher self) b done agg ->
    exists w' agg',
      invoke_all self cs w = (Ret self, w') /\
      heap w' !! config self = Some agg' /\
      Dict.get "initialized" agg' = Dict.get "initialized" agg /\
      assembled_from (hasher self) b (done ++ cs) agg'.
Proof.
  induction cs as [|c cs IH]; intros done agg w Hagg Hinv.
  - exists w, agg. rewrite app_nil_r. auto.
  - destruct (invoke_effect self c agg w Hagg) as (w1 & d1 & d2 & Hinvoke & Hheap).
    destruct (IH (done ++ [c])%list
                (Dict.set (section_key c) (section_of (hasher self) c d1 d2) agg) w1)
      as (w' & agg' & Hall & Hagg' & Hinit & Hinv').
    + rewrite Hheap. apply lookup_insert_eq.
    + apply assembled_from_set. exact Hinv.
    + exists w', agg'. split; [|split; [exact Hagg'|split]].
      * cbn [invoke_all]. unfold bind. rewrite Hinvoke. exact Hall.
      * rewrite Hinit. apply get_set_ne. destruct c; discriminate.
      * rewrite <- app_assoc in Hinv'. exact Hinv'.
Qed.

(** C3 (as the code has it).  For every sequence of setter calls on a fresh
    builder, [build()] returns an aggregate each entry of which is an
    initial entry or the section one of the calls assigned: a password or
    shared secret is in it as the output of the hasher only, the argument of
    [set_security_keys] is in it as it was given. *)
Theorem assemble_sections (l : Argon2.library) (cs : list setter_call) (w : world) :
  let hasher := Argon2PasswordHasher_init l in
  exists ref w' aggregate,
    assemble hasher cs w = (Ret ref, w') /\
    heap w' !! ref = Some aggregate /\
    Dict.get "initialized" aggregate = Some (JBool true) /\
    forall k v,
      Dict.get k aggregate = Some v ->
      In (k, v) (initial_entries true) \/
      exists c d1 d2, In c cs /\ k = section_key c /\ v = section_of hasher c d1 d2.
Proof.
  intros hasher0.
  set (self := {| hasher := hasher0; config := fresh (heap w) |}).
  set (w0 := with_heap (<[fresh (heap w) := initial_entries false]> (heap w)) w).
  destruct (invoke_all_assembled self false cs [] (initial_entries false) w0)
    as (w1 & agg & Hall & Hagg & Hinit & Hinv).
  { apply lookup_insert_eq. }
  { intros k v Hk. left. apply get_In. exact Hk. }
  exists (config self),
    (with_heap (<[config self := Dict.set "initialized" (JBool true) agg]> (heap w1)) w1),
    (Dict.set "initialized" (JBool true) agg).
  split; [|split; [|split]].
  - assert (ConfigurationBuilder_init hasher0 w = (Ret self, w0)) as Hinit0
      by reflexivity.
    unfold assemble, bind. rewrite Hinit0, Hall. apply build_effect. exact Hagg.
  - apply lookup_insert_eq.
  - apply get_set_eq.
  - intros k v Hk.
    destruct (String.eqb_spec "initialized" k) as [<-|Hne].
    + rewrite get_set_eq in Hk. injection Hk as <-. left. simpl. auto.
    + rewrite get_set_ne in Hk by exact Hne.
      destruct (Hinv k v Hk) as [Hin | Hsec]; [left | right; exact Hsec].
      simpl in Hin |- *.
      destruct Hin as [Hin|[Hin|[Hin|[Hin|[]]]]]; auto.
      injection Hin as <- _. congruence.
Qed.

(** C9 (as the code has it).  [build()] sets [initialized] and returns the
    builder's own dict, not a copy; a setter invoked on the builder after
    that returns the builder as before and assigns its section in that same
    dict. *)
Theorem setter_after_build (self : ConfigurationBuilder Argon2PasswordHasher)
        (c : setter_call) (agg : pydict json) (w : world) :
  heap w !! config self = Some agg ->
  exists w1 w2 d1 d2,
    build self w = (Ret (config self), w1) /\
    heap w1 !! config self = Some (Dict.set "initialized" (JBool true) agg) /\
    invoke self c w1 = (Ret self, w2) /\
    heap w2 !! config self =
      Some (Dict.set (section_key c) (section_of (hasher self) c d1 d2)
              (Dict.set "initialized" (JBool true) agg)).
Proof.
  intros Hagg.
  set (w1 := with_heap (<[config self := Dict.set "initialized" (JBool true) agg]> (heap w)) w).
  assert (heap w1 !! config self = Some (Dict.set "initialized" (JBool true) agg)) as Hw1
    by apply lookup_insert_eq.
  destruct (invoke_effect self c _ w1 Hw1) as (w2 & d1 & d2 & Hinvoke & Hheap).
  exists w1, w2, d1, d2.
  split; [apply build_effect; exact Hagg|].
  split; [exact Hw1|]. split; [exact Hinvoke|].
  rewrite Hheap. apply lookup_insert_eq.
Qed.

End AppFacts.

(* ===================================================================== *)
(** ** The properties on the concrete inputs *)
(* ===================================================================== *)

Section Checked.
Import Scenario.

Lemma append_String (c : ascii) (s t : string) :
  String c s ++ t = String c (s ++ t).
Proof. reflexivity. Qed.

Lemma split_once_bit (b : bool) (s : string) :
  PyStr.split_once "$"%char (String (bit b) s) =
    (String (bit b) (fst (PyStr.split_once "$"%char s)),
     snd (PyStr.split_once "$"%char s)).
Proof.
  destruct b; simpl; destruct (PyStr.split_once "$"%char s); reflexivity.
Qed.

Lemma split_once_bits (s t : string) :
  PyStr.split_once "$"%char (bits s ++ String "$"%char t) = (bits s, t).
Proof.
  induction s as [|[b0 b1 b2 b3 b4 b5 b6 b7] s IH].
  - reflexivity.
  - cbn [bits]. rewrite !append_String, !split_once_bit, IH. reflexivity.
Qed.

Lemma is_ascii_app (s t : string) :
  Argon2.is_ascii (s ++ t) = Argon2.is_ascii s && Argon2.is_ascii t.
Proof.
  induction s as [|c s IH]; [reflexivity|].
  rewrite append_String. cbn [Argon2.is_ascii]. rewrite IH. apply andb_assoc.
Qed.

Lemma is_ascii_bits (s : string) : Argon2.is_ascii (bits s) = true.
Proof.
  induction s as [|[b0 b1 b2 b3 b4 b5 b6 b7] s IH]; [reflexivity|].
  cbn [bits]. destruct b0, b1, b2, b3, b4, b5, b6, b7; exact IH.
Qed.

(** The stand-in verifies the hashes it produces. *)
Lemma stand_in_sound : Argon2.sound stand_in.
Proof.
  intros ps salt password. unfold Argon2.verify.
  cbn [Argon2.hash_secret Argon2.verify_secret stand_in].
  assert (Argon2.is_ascii ("$argon2id$" ++ bits salt ++ "$" ++ bits password) = true)
    as ->.
  { rewrite !is_ascii_app, !is_ascii_bits. reflexivity. }
  assert (last_field ("$argon2id$" ++ bits salt ++ "$" ++ bits password) = bits password)
    as ->.
  { unfold last_field.
    change ("$argon2id$" ++ bits salt ++ "$" ++ bits password)
      with (String "$"%char ("argon2id" ++ String "$"%char
              (bits salt ++ String "$"%char (bits password)))).
    change (PyStr.split_once "$"%char
              (String "$"%char ("argon2id" ++ String "$"%char
                 (bits salt ++ String "$"%char (bits password)))))
      with (EmptyString, "argon2id" ++ String "$"%char
                            (bits salt ++ String "$"%char (bits password))).
    cbn [snd].
    change (PyStr.split_once "$"%char
              ("argon2id" ++ String "$"%char
                 (bits salt ++ String "$"%char (bits password))))
      with ("argon2id", bits salt ++ String "$"%char (bits password)).
    cbn [snd]. rewrite split_once_bits. reflexivity. }
  rewrite String.eqb_refl. reflexivity.
Qed.

Lemma take_once_witness :
  fst (PasswordManager.get_temporary_password "db" "app" provisioned)
    = Ret (Some "P@ss1234") /\
  fst (PasswordManager.get_temporary_password "db" "app"
         (snd (PasswordManager.get_temporary_password "db" "app" provisioned)))
    = Ret None.
Proof.
  destruct (take_once stand_in upper "db" "app" "P@ss1234" provisioned)
    as (Hfirst & _ & Hlater); [reflexivity|].
  split; [exact Hfirst | exact (Hlater [] eq_refl)].
Defined.

Lemma initialize_then_verify_witness :
  exists w1,
    PasswordManager.initialize_service_password stand_in "db" "app" "P@ss1234" boot
      = (Ret tt, w1) /\
    fst (PasswordManager.verify_password stand_in "db" "app" "P@ss1234" w1) = Ret true.
Proof.
  destruct (initialize_then_verify stand_in "db" "app" "P@ss1234" boot
              stand_in_sound eq_refl) as (w1 & Hinit & Hverify & _).
  exists w1. split; assumption.
Defined.

Lemma setter_after_build_witness :
  exists w1 w2,
    App.build {| App.hasher := App.Argon2PasswordHasher_init stand_in; App.config := 1 |}
      (snd (App.ConfigurationBuilder_init (App.Argon2PasswordHasher_init stand_in) boot))
      = (Ret 1, w1) /\
    option_map (Dict.has "ldap") (heap w1 !! 1) = Some false /\
    option_map (Dict.has "ldap") (heap w2 !! 1) = Some true.
Proof.
  destruct (setter_after_build
              {| App.hasher := App.Argon2PasswordHasher_init stand_in; App.config := 1 |}
              (App.SetLdapConfiguration "dc=local,dc=auth" "admin-secret" "reader-secret")
              (App.initial_entries false)
              (snd (App.ConfigurationBuilder_init (App.Argon2PasswordHasher_init stand_in) boot)))
    as (w1 & w2 & d1 & d2 & Hbuild & Hw1 & _ & Hw2); [reflexivity|].
  cbn [App.config] in Hw1, Hw2.
  exists w1, w2. rewrite Hw1, Hw2. split; [exact Hbuild|]. split; reflexivity.
Defined.

(** C2 fails as stated: two states that differ in the staged plaintext only
    are told apart by [generate_initialization_script] and by
    [get_initialization_passwords], which return it. *)
Lemma script_returns_plaintext :
  let w1 := snd (PasswordManager.set_temporary_password "db" "app" "P@ss1234" boot) in
  let w2 := snd (PasswordManager.set_temporary_password "db" "app" "Qu3rty!!" boot) in
  same_but_cache w1 w2 /\
  fst (PasswordManager.generate_initialization_script upper w1) =
    Ret (PyStr.join PyStr.LF ["#!/bin/bash"; "# Temporary passwords for initialization";
                              "export DB_APP_TEMP_PASS='P@ss1234'"]) /\
  fst (PasswordManager.generate_initialization_script upper w2) =
    Ret (PyStr.join PyStr.LF ["#!/bin/bash"; "# Temporary passwords for initialization";
                              "export DB_APP_TEMP_PASS='Qu3rty!!'"]) /\
  fst (PasswordManager.get_initialization_passwords w1) =
    Ret [("db", [("app", "P@ss1234")])] /\
  fst (PasswordManager.get_initialization_passwords w2) =
    Ret [("db", [("app", "Qu3rty!!")])].
Proof. repeat split. Qed.

(** C3 fails as stated: the argument of [set_security_keys] is in the built
    aggregate as it was given. *)
Lemma secret_key_embedded :
  fst (built_with_key boot) =
    Ret (Some [("version", JStr "1.0");
               ("security", JDict [("authentik_secret_key", JStr "s3cr3t-key");
                                   ("api_token", JStr "s")]);
               ("services", JDict []);
               ("initialized", JBool true)]) /\
  option_map (fun aggregate => json_mentions "s3cr3t-key" (JDict aggregate))
             (match fst (built_with_key boot) with Ret o => o | Raise _ => None end)
    = Some true.
Proof. split; vm_compute; reflexivity. Qed.

(** C5 fails as stated: on a string that is not a hash both [verify_password]
    methods raise. *)
Lemma malformed_hash_raises :
  fst (App.verify_password (App.Argon2PasswordHasher_init stand_in)
         "password123" "not-a-hash" boot) = Raise InvalidHashError /\
  fst (PasswordManager.verify_password stand_in "db" "app" "password123" damaged)
    = Raise InvalidHashError.
Proof. split; vm_compute; reflexivity. Qed.


(** C9 fails as stated: a setter called after [build()] returns as usual
    and the aggregate that [build()] returned has a new section. *)
Lemma aggregate_changes_after_build :
  exists before after,
    fst (set_after_build boot) = Ret (Some before, Some after) /\
    Dict.get "initialized" before = Some (JBool true) /\
    Dict.get "admin" before = None /\
    Dict.get "admin" after =
      Some (JDict [("email", JStr "root@example.org");
                   ("password_hash",
                    JStr (Argon2.hash_secret stand_in
                            (App.ph (App.Argon2PasswordHasher_init stand_in))
                            "s" "correct-horse"))]).
Proof. eexists _, _. repeat split. Qed.

End Checked.

(* ===================================================================== *)
(** ** Further properties of the bridge *)
(* ===================================================================== *)

Section BridgeMore.
Import Bridge.

(** [main] on a stream whose two values are not empty, by the answers of
    the two flow stages. *)
Lemma main_by_stage (p : provider) (stdin : list string) :
  let u := parsed "User-Name" stdin in
  let pw := parsed "User-Password" stdin in
  u <> "" -> pw <> "" ->
  main p stdin =
    if negb (stage_ok (p (PostIdentification u))) then
      (1%Z, {| calls := [PostIdentification u]; stdout := [failure_line] |})
    else if negb (stage_ok (p (PostPassword pw))) then
      (1%Z, {| calls := [PostIdentification u; PostPassword pw];
               stdout := [failure_line] |})
    else
      let welcome := "Reply-Message = " ++ PyStr.quoted ("Welcome " ++ u) in
      match details_of (p (GetUsers u)) with
      | None => (0%Z, {| calls := full_exchange u pw; stdout := [] |})
      | Some ud =>
          match groups ud with
          | [] => (0%Z, {| calls := full_exchange u pw; stdout := [welcome] |})
          | gs =>
              match all_names gs with
              | Some names =>
                  (0%Z, {| calls := full_exchange u pw;
                           stdout := [welcome;
                                      "Class = " ++ PyStr.quoted (PyStr.join "," names)] |})
              | None => (1%Z, {| calls := full_exchange u pw; stdout := [welcome] |})
              end
          end
      end.
Proof.
  intros u pw Hu Hpw. unfold main. fold (parsed "User-Name" stdin).
  fold (parsed "User-Password" stdin). fold u. fold pw.
  rewrite (truthy_nonempty _ Hu), (truthy_nonempty _ Hpw). cbn [negb orb].
  unfold authenticate, _get_user_details, send, start, stage_ok. cbn [calls stdout app].
  destruct (p (PostIdentification u)) as [|st1 b1]; [reflexivity|].
  destruct (st1 =? 200)%Z; cbn [negb]; [|reflexivity].
  destruct (p (PostPassword pw)) as [|st2 b2]; [reflexivity|].
  destruct (st2 =? 200)%Z; cbn [negb]; [|reflexivity].
  destruct (details_of (p (GetUsers u))) as [ud|]; [|reflexivity].
  destruct (groups ud) as [|g gs]; [reflexivity|].
  destruct (all_names (g :: gs)); reflexivity.
Qed.

Lemma parsed_empty_rejected (p : provider) (stdin : list string) :
  parsed "User-Name" stdin = "" \/ parsed "User-Password" stdin = "" ->
  main p stdin = (1%Z, start).
Proof. apply main_rejects_empty. Qed.

(** X1.  When the identification stage does not answer 200 (an exception
    or another status), the bridge sends nothing more: the password never
    leaves the process; it prints the failure reply and exits with code 1. *)
Theorem identification_failure_stops (p : provider) (stdin : list string) :
  parsed "User-Name" stdin <> "" ->
  parsed "User-Password" stdin <> "" ->
  stage_ok (p (PostIdentification (parsed "User-Name" stdin))) = false ->
  main p stdin =
    (1%Z, {| calls := [PostIdentification (parsed "User-Name" stdin)];
             stdout := [failure_line] |}).
Proof.
  intros Hu Hpw Hstage. rewrite (main_by_stage p stdin Hu Hpw). cbv zeta.
  rewrite Hstage. reflexivity.
Qed.

(** X2.  When the identification stage answers 200 and the password stage
    does not, the bridge has sent the two stage requests and no user query;
    it prints the failure reply and exits with code 1. *)
Theorem password_failure_rejects (p : provider) (stdin : list string) :
  parsed "User-Name" stdin <> "" ->
  parsed "User-Password" stdin <> "" ->
  stage_ok (p (PostIdentification (parsed "User-Name" stdin))) = true ->
  stage_ok (p (PostPassword (parsed "User-Password" stdin))) = false ->
  main p stdin =
    (1%Z, {| calls := [PostIdentification (parsed "User-Name" stdin);
                       PostPassword (parsed "User-Password" stdin)];
             stdout := [failure_line] |}).
Proof.
  intros Hu Hpw H1 H2. rewrite (main_by_stage p stdin Hu Hpw). cbv zeta.
  rewrite H1, H2. reflexivity.
Qed.

(** X3.  Exit code 0 is given only when both values were present and not
    empty and both flow stages answered 200 for them; the three requests
    were then sent, each once. *)
Theorem accept_needs_both_stages (p : provider) (stdin : list string) :
  fst (main p stdin) = 0%Z ->
  parsed "User-Name" stdin <> "" /\
  parsed "User-Password" stdin <> "" /\
  stage_ok (p (PostIdentification (parsed "User-Name" stdin))) = true /\
  stage_ok (p (PostPassword (parsed "User-Password" stdin))) = true /\
  calls (snd (main p stdin)) =
    full_exchange (parsed "User-Name" stdin) (parsed "User-Password" stdin).
Proof.
  intros Hexit.
  destruct (string_dec (parsed "User-Name" stdin) "") as [Hu|Hu].
  { rewrite parsed_empty_rejected in Hexit by (left; exact Hu). discriminate. }
  destruct (string_dec (parsed "User-Password" stdin) "") as [Hpw|Hpw].
  { rewrite parsed_empty_rejected in Hexit by (right; exact Hpw). discriminate. }
  rewrite (main_by_stage p stdin Hu Hpw) in Hexit |- *. cbv zeta in Hexit |- *.
  destruct (stage_ok (p (PostIdentification _))); [|discriminate].
  destruct (stage_ok (p (PostPassword _))); [|discriminate].
  cbn [negb] in Hexit |- *. repeat split; try assumption.
  destruct (details_of _) as [ud|]; [|reflexivity].
  destruct (groups ud) as [|g gs]; [reflexivity|].
  destruct (all_names (g :: gs)); reflexivity.
Qed.

(** X4.  Whatever the stream and the provider, a run sends at most three
    requests: a beginning of identification, password, user query, in this
    order and none of them twice. *)
Theorem single_attempt_per_stage (p : provider) (stdin : list string) :
  exists n,
    n <= 3 /\
    calls (snd (main p stdin)) =
      take n (full_exchange (parsed "User-Name" stdin) (parsed "User-Password" stdin)).
Proof.
  destruct (string_dec (parsed "User-Name" stdin) "") as [Hu|Hu].
  { exists 0. rewrite parsed_empty_rejected by (left; exact Hu). split; [lia | reflexivity]. }
  destruct (string_dec (parsed "User-Password" stdin) "") as [Hpw|Hpw].
  { exists 0. rewrite parsed_empty_rejected by (right; exact Hpw). split; [lia | reflexivity]. }
  rewrite (main_by_stage p stdin Hu Hpw). cbv zeta.
  destruct (stage_ok (p (PostIdentification _))); cbn [negb];
    [|exists 1; split; [lia | reflexivity]].
  destruct (stage_ok (p (PostPassword _))); cbn [negb];
    [|exists 2; split; [lia | reflexivity]].
  exists 3. split; [lia|].
  destruct (details_of _) as [ud|]; [|reflexivity].
  destruct (groups ud) as [|g gs]; [reflexivity|].
  destruct (all_names (g :: gs)); reflexivity.
Qed.

(** The loop over a stream in two parts. *)
Lemma read_attributes_app (l1 l2 : list string) :
  forall attributes : gmap string string,
    read_attributes (l1 ++ l2)%list attributes =
      read_attributes l2 (read_attributes l1 attributes).
Proof.
  induction l1 as [|line l1 IH]; intros attributes; [reflexivity|].
  cbn [app read_attributes].
  destruct (PyStr.contains_char "=" line); [|apply IH].
  destruct (PyStr.split_once "=" (PyStr.strip line)). apply IH.
Qed.

(** Lines that do not set a key leave it as it was. *)
Lemma read_attributes_untouched (k : string) (lines : list string) :
  forall attributes : gmap string string,
    has_key k lines = false ->
    read_attributes lines attributes !! k = attributes !! k.
Proof.
  induction lines as [|line rest IH]; intros attributes Hk; [reflexivity|].
  cbn [has_key existsb] in Hk. apply orb_false_iff in Hk as [Hline Hrest].
  cbn [read_attributes]. unfold line_key in Hline.
  destruct (PyStr.contains_char "=" line); [|apply IH; exact Hrest].
  destruct (PyStr.split_once "=" (PyStr.strip line)) as [key value].
  rewrite IH by exact Hrest. cbn [fst] in Hline.
  apply lookup_insert_ne. apply String.eqb_neq. exact Hline.
Qed.

(** X5.  When several lines of the stream set the same key, the last of
    them counts: its value is the text after the first equals sign of the
    line, white space around the line removed. *)
Theorem last_line_wins (before after : list string) (line k : string)
        (attributes : gmap string string) :
  line_key line = Some k ->
  has_key k after = false ->
  read_attributes (before ++ line :: after)%list attributes !! k =
    Some (snd (PyStr.split_once "="%char (PyStr.strip line))).
Proof.
  unfold line_key. intros Hline Hafter.
  rewrite read_attributes_app. cbn [read_attributes].
  destruct (PyStr.contains_char "=" line); [|discriminate].
  destruct (PyStr.split_once "=" (PyStr.strip line)) as [key value].
  cbn [fst snd] in *. injection Hline as ->.
  rewrite read_attributes_untouched by exact Hafter.
  apply lookup_insert_eq.
Qed.

(** X6.  Splitting at the first occurrence of a character loses nothing:
    the text is the part before, the character and the part after, and the
    part before has no occurrence of the character. *)
Theorem split_once_rejoins (c : ascii) (s : string) :
  PyStr.contains_char c s = true ->
  s = fst (PyStr.split_once c s) ++ String c (snd (PyStr.split_once c s)) /\
  PyStr.contains_char c (fst (PyStr.split_once c s)) = false.
Proof.
  induction s as [|d s IH]; cbn [PyStr.contains_char PyStr.split_once]; [discriminate|].
  destruct (Ascii.eqb c d) eqn:Hcd.
  - intros _. apply Ascii.eqb_eq in Hcd as ->. split; reflexivity.
  - intros Hs. destruct (IH Hs) as [Heq Hfree].
    destruct (PyStr.split_once c s) as [k v]. cbn [fst snd] in *.
    split.
    + rewrite append_String. f_equal. exact Heq.
    + cbn [PyStr.contains_char]. rewrite Hcd. exact Hfree.
Qed.

Lemma lstrip_by_head (f : ascii -> bool) (c : ascii) (s : string) :
  f c = false -> PyStr.lstrip_by f (String c s) = String c s.
Proof. intros Hc. cbn [PyStr.lstrip_by]. rewrite Hc. reflexivity. Qed.

(** Stripping on the right removes a tail that is all of the stripped kind
    and stops at the first character that is not. *)
Lemma rstrip_by_tail (f : ascii -> bool) (c : ascii) (t : string) :
  f c = false -> PyStr.rstrip_by f t = "" ->
  forall x, PyStr.rstrip_by f (x ++ String c t) = x ++ String c "".
Proof.
  intros Hc Ht. induction x as [|a x IH].
  - change ("" ++ String c t) with (String c t). cbn [PyStr.rstrip_by].
    rewrite Ht, Hc. reflexivity.
  - rewrite !append_String. cbn [PyStr.rstrip_by]. rewrite IH.
    destruct x; reflexivity.
Qed.

Lemma last_char_split (v : string) (d : ascii) :
  last_char v = Some d -> exists x, v = x ++ String d "".
Proof.
  induction v as [|c v IH]; [discriminate|].
  destruct v as [|c' v'].
  - intros [= ->]. exists "". reflexivity.
  - intros Hlast. destruct (IH Hlast) as [x Hx].
    exists (String c x). rewrite append_String, <- Hx. reflexivity.
Qed.

Lemma last_char_some (c : ascii) (v : string) :
  exists d, last_char (String c v) = Some d.
Proof.
  revert c. induction v as [|c' v IH]; intros c.
  - exists c. reflexivity.
  - destruct (IH c') as [d Hd]. exists d. exact Hd.
Qed.

Lemma append_assoc (s t u : string) : (s ++ t) ++ u = s ++ t ++ u.
Proof.
  induction s as [|c s IH]; [reflexivity|].
  rewrite !append_String, IH. reflexivity.
Qed.

(** A value between two double quotes is read back as the value. *)
Lemma strip_quotes_quoted (v : string) :
  bare v = true -> PyStr.strip_quotes (PyStr.quoted v) = v.
Proof.
  unfold PyStr.strip_quotes, PyStr.strip_by, PyStr.quoted, bare.
  cbn [PyStr.lstrip_by]. rewrite Ascii.eqb_refl.
  destruct v as [|c v]; [intros _; reflexivity|].
  intros Hbare. apply andb_true_iff in Hbare as [Hc Hlast].
  apply negb_true_iff in Hc.
  rewrite append_String, (lstrip_by_head _ _ _ Hc), <- append_String.
  destruct (last_char (String c v)) as [d|] eqn:Hd.
  - apply negb_true_iff in Hlast.
    destruct (last_char_split _ _ Hd) as [x ->].
    rewrite append_assoc. change (String d "" ++ String PyStr.dquote "")
      with (String d (String PyStr.dquote "")).
    apply rstrip_by_tail; [exact Hlast|].
    cbn [PyStr.rstrip_by]. rewrite Ascii.eqb_refl. reflexivity.
  - destruct (last_char_some c v) as [d Hd']. congruence.
Qed.

Lemma split_once_at (c : ascii) (k rest : string) :
  PyStr.contains_char c k = false ->
  PyStr.split_once c (k ++ String c rest) = (k, rest) /\
  PyStr.contains_char c (k ++ String c rest) = true.
Proof.
  induction k as [|d k IH]; intros Hfree.
  - change ("" ++ String c rest) with (String c rest).
    cbn [PyStr.split_once PyStr.contains_char]. rewrite Ascii.eqb_refl. auto.
  - cbn [PyStr.contains_char] in Hfree.
    destruct (Ascii.eqb c d) eqn:Hcd; [discriminate|].
    destruct (IH Hfree) as [Hsplit Hin].
    rewrite append_String. cbn [PyStr.split_once PyStr.contains_char].
    rewrite Hcd, Hsplit, Hin. auto.
Qed.

(** X7.  A line [Key=value] whose value stands between double quotes, as
    the bridge itself writes its reply lines, sets the key to the value
    without the quotes: for a key with no equals sign and no leading white
    space and a value that neither begins nor ends with a double quote. *)
Theorem quoted_line_reads_back (k v : string) :
  plain_key k = true ->
  bare v = true ->
  read_attributes [k ++ "=" ++ PyStr.quoted v ++ PyStr.LF] ∅ !! k
    = Some (PyStr.quoted v) /\
  parsed k [k ++ "=" ++ PyStr.quoted v ++ PyStr.LF] = v.
Proof.
  intros Hkey Hbare. unfold plain_key in Hkey.
  apply andb_true_iff in Hkey as [Hfree Hhead]. apply negb_true_iff in Hfree.
  assert (PyStr.strip (k ++ "=" ++ PyStr.quoted v ++ PyStr.LF)
          = k ++ "=" ++ PyStr.quoted v) as Hstrip.
  { unfold PyStr.strip, PyStr.strip_by.
    assert (PyStr.lstrip_by PyStr.isspace (k ++ "=" ++ PyStr.quoted v ++ PyStr.LF)
            = k ++ "=" ++ PyStr.quoted v ++ PyStr.LF) as ->.
    { destruct k as [|c k].
      - reflexivity.
      - rewrite append_String. apply lstrip_by_head.
        apply negb_true_iff. exact Hhead. }
    assert (k ++ "=" ++ PyStr.quoted v ++ PyStr.LF
            = (k ++ String "="%char (String PyStr.dquote v)) ++ String PyStr.dquote PyStr.LF)
      as ->.
    { rewrite (append_assoc k). unfold PyStr.quoted.
      change (k ++ String "="%char
                (String PyStr.dquote ((v ++ String PyStr.dquote "") ++ PyStr.LF))
              = k ++ String "="%char
                  (String PyStr.dquote (v ++ String PyStr.dquote PyStr.LF))).
      rewrite (append_assoc v). reflexivity. }
    rewrite rstrip_by_tail; [|reflexivity|reflexivity].
    rewrite (append_assoc k). reflexivity. }
  assert (read_attributes [k ++ "=" ++ PyStr.quoted v ++ PyStr.LF] ∅
          = <[k := PyStr.quoted v]> ∅) as Hread.
  { cbn [read_attributes]. rewrite Hstrip.
    change (k ++ "=" ++ PyStr.quoted v ++ PyStr.LF)
      with (k ++ String "="%char (PyStr.quoted v ++ PyStr.LF)).
    change (k ++ "=" ++ PyStr.quoted v) with (k ++ String "="%char (PyStr.quoted v)).
    destruct (split_once_at "="%char k (PyStr.quoted v ++ PyStr.LF) Hfree) as [_ ->].
    destruct (split_once_at "="%char k (PyStr.quoted v) Hfree) as [-> _].
    reflexivity. }
  unfold parsed. rewrite Hread, lookup_insert_eq. cbn [default].
  split; [reflexivity | apply strip_quotes_quoted; exact Hbare].
Qed.

End BridgeMore.

(* ===================================================================== *)
(** ** Further properties of the repository and of the service *)
(* ===================================================================== *)

Section RepositoryMore.
Import PasswordManager.
Variable lib : Argon2.library.

Lemma get_del_ne {V : Type} (k k' : string) (d : pydict V) :
  k <> k' -> Dict.get k' (Dict.del k d) = Dict.get k' d.
Proof.
  intros Hne. induction d as [|[k0 v0] d IH]; [reflexivity|]. cbn [Dict.del Dict.get].
  destruct (String.eqb_spec k k0) as [->|Hk].
  - destruct (String.eqb_spec k' k0); [congruence | exact IH].
  - cbn [Dict.get]. destruct (String.eqb k' k0); [reflexivity | exact IH].
Qed.

Lemma set_set {V : Type} (k : string) (v v' : V) (d : pydict V) :
  Dict.set k v (Dict.set k v' d) = Dict.set k v d.
Proof.
  induction d as [|[k0 v0] d IH]; cbn [Dict.set].
  - rewrite String.eqb_refl. reflexivity.
  - destruct (String.eqb k k0) eqn:E; cbn [Dict.set]; rewrite E; [reflexivity|].
    rewrite IH. reflexivity.
Qed.

Lemma get_set {V : Type} (k k' : string) (v : V) (d : pydict V) :
  Dict.get k' (Dict.set k v d) = if String.eqb k k' then Some v else Dict.get k' d.
Proof.
  destruct (String.eqb_spec k k') as [->|Hne].
  - apply get_set_eq.
  - apply get_set_ne. exact Hne.
Qed.

Lemma length_append (s t : string) :
  String.length (s ++ t) = String.length s + String.length t.
Proof.
  induction s as [|c s IH]; [reflexivity|].
  rewrite append_String. cbn [String.length]. rewrite IH. reflexivity.
Qed.

(** Two user names with the same key in the file are the same name. *)
Lemma hash_key_inj (u u' suffix : string) : u ++ suffix = u' ++ suffix -> u = u'.
Proof.
  revert u'. induction u as [|c u IH]; intros [|c' u'] Heq.
  - reflexivity.
  - change ("" ++ suffix) with suffix in Heq. rewrite append_String in Heq.
    apply (f_equal String.length) in Heq. cbn [String.length] in Heq.
    rewrite length_append in Heq. lia.
  - change ("" ++ suffix) with suffix in Heq. rewrite append_String in Heq.
    apply (f_equal String.length) in Heq. cbn [String.length] in Heq.
    rewrite length_append in Heq. lia.
  - rewrite !append_String in Heq. injection Heq as -> Heq. f_equal. apply IH. exact Heq.
Qed.

(** A store that accepts the service loads as [config_dict], and the
    service is absent from it or bound to a dict. *)
Lemma accepts_service_load (s : string) (w : world) :
  accepts_service s w = true ->
  _load_config w = (Ret (JDict (config_dict w)), w) /\
  (Dict.get s (config_dict w) = None \/
   Dict.get s (config_dict w) = Some (JDict (section_of_service s (config_dict w)))).
Proof.
  unfold accepts_service, _load_config, config_dict, section_of_service.
  destruct (config_file w) as [[[|[| | | | |d]| |d1] m]|]; cbn [data]; try discriminate.
  - destruct (Dict.get s d) as [[| | | | |sec]|]; try discriminate; auto.
  - auto.
Qed.

(** The file [store_password] leaves on a store that accepts the service. *)
Lemma store_password_result (s u h : string) (w : world) :
  accepts_service s w = true ->
  store_password s u h w =
    (Ret tt,
     with_config_file
       (Some {| data := Dump (JDict
                  (Dict.set s
                     (JDict (Dict.set (u ++ "_password_hash") (JStr h)
                               (section_of_service s (config_dict w))))
                     (config_dict w)));
                mode := 384 |}) w).
Proof.
  intros Hacc. destruct (accepts_service_load s w Hacc) as [Hload Hsec].
  unfold store_password, bind, lift. rewrite Hload.
  cbn [Py.contains]. rewrite has_get.
  destruct Hsec as [Hnone | Hsome].
  - rewrite Hnone. cbn [negb Py.setitem Py.getitem ret]. rewrite get_set_eq.
    cbn [Py.setitem]. rewrite save_config_effect, set_set.
    unfold section_of_service. rewrite Hnone. reflexivity.
  - rewrite Hsome. cbn [negb Py.setitem Py.getitem ret]. rewrite Hsome.
    cbn [Py.setitem]. rewrite save_config_effect. reflexivity.
Qed.

(** [verify_password] on a file that holds a dict. *)
Lemma verify_password_on_dict (s u p : string) (d : pydict json) (w : world) :
  _load_config w = (Ret (JDict d), w) ->
  verify_password lib s u p w =
    (match Dict.get s d with
     | None => Ret false
     | Some section =>
         match Py.contains (u ++ "_password_hash") section with
         | Ret true =>
             match Py.getitem section (u ++ "_password_hash") with
             | Ret (JStr hash) =>
                 match Argon2.verify lib hash p with
                 | Ret _ => Ret true
                 | Raise VerifyMismatchError => Ret false
                 | Raise e => Raise e
                 end
             | Ret _ => Raise AttributeError
             | Raise e => Raise e
             end
         | Ret false => Ret false
         | Raise e => Raise e
         end
     end, w).
Proof.
  intros Hload. unfold verify_password, bind, lift. rewrite Hload.
  cbn [Py.contains]. rewrite has_get.
  destruct (Dict.get s d) as [section|] eqn:Hs; cbn [negb Py.getitem ret]; [|reflexivity].
  rewrite Hs. destruct (Py.contains _ section) as [[]|e]; cbn [negb]; try reflexivity.
  destruct (Py.getitem section _) as [[| | |hash| |]|e]; try reflexivity.
  destruct (Argon2.verify lib hash p) as [b|[]]; reflexivity.
Qed.

Lemma load_after_save (config : json) (m : N) (w : world) :
  _load_config (with_config_file (Some {| data := Dump config; mode := m |}) w) =
    (Ret config, with_config_file (Some {| data := Dump config; mode := m |}) w).
Proof. reflexivity. Qed.

(** X8.  [verify_password] answers [False], and changes nothing, when there
    is no configuration file, when the file's dict has no entry for the
    service, and when the service's dict has no hash for the user. *)
Theorem verify_unknown_is_false (s u p : string) (w : world) :
  (config_file w = None \/
   (accepts_service s w = true /\ stored_hash s u w = None)) ->
  verify_password lib s u p w = (Ret false, w).
Proof.
  intros [Hnone | [Hacc Hstored]].
  - unfold verify_password, bind, _load_config. rewrite Hnone. reflexivity.
  - destruct (accepts_service_load s w Hacc) as [Hload Hsec].
    rewrite (verify_password_on_dict s u p _ w Hload).
    unfold stored_hash, config_dict, section_of_service in *.
    destruct (config_file w) as [[[|[| | | | |d]| |d1] m]|]; cbn [data] in *;
      try (destruct Hsec as [-> | Hsec]; [reflexivity | discriminate]).
    destruct Hsec as [-> | Hsec]; [reflexivity|].
    rewrite Hsec in Hstored |- *. cbn [Py.contains]. rewrite has_get, Hstored.
    reflexivity.
Qed.

(** [verify_password] for the key that [store_password] has just written. *)
Lemma verify_after_store_aux (s u h p : string) (w : world) :
  accepts_service s w = true ->
  fst (verify_password lib s u p (snd (store_password s u h w))) =
    match Argon2.verify lib h p with
    | Ret _ => Ret true
    | Raise VerifyMismatchError => Ret false
    | Raise e => Raise e
    end.
Proof.
  intros Hacc. rewrite (store_password_result s u h w Hacc). cbn [snd].
  rewrite (verify_password_on_dict s u p _ _ (load_after_save _ _ _)).
  rewrite get_set_eq. cbn [Py.contains Py.getitem fst].
  rewrite has_get, get_set_eq. reflexivity.
Qed.

(** X9.  After [store_password] has stored a hash for a key, whatever was
    stored for the key before, [verify_password] for the key is decided by
    that hash alone: [True] when the library verifies the password against
    it, [False] on a mismatch, the library's exception otherwise. *)
Theorem verify_after_store (s u h p : string) (w : world) :
  accepts_service s w = true ->
  fst (verify_password lib s u p (snd (store_password s u h w))) =
    match Argon2.verify lib h p with
    | Ret _ => Ret true
    | Raise VerifyMismatchError => Ret false
    | Raise e => Raise e
    end.
Proof. apply verify_after_store_aux. Qed.

(** [store_password] for one key and [verify_password] for another. *)
Lemma store_keeps_other_records_aux (s u h s' u' p : string) (w : world) :
  accepts_service s w = true ->
  s' <> s \/ u' <> u ->
  fst (verify_password lib s' u' p (snd (store_password s u h w))) =
    fst (verify_password lib s' u' p w).
Proof.
  intros Hacc Hother.
  destruct (accepts_service_load s w Hacc) as [Hload Hsec].
  rewrite (store_password_result s u h w Hacc). cbn [snd].
  rewrite (verify_password_on_dict s' u' p _ _ (load_after_save _ _ _)).
  rewrite (verify_password_on_dict s' u' p _ w Hload). cbn [fst].
  rewrite get_set.
  destruct (String.eqb_spec s s') as [<-|Hs]; [|reflexivity].
  destruct Hother as [Hs | Hu]; [congruence|].
  assert (u ++ "_password_hash" <> u' ++ "_password_hash") as Hkey.
  { intros Heq. apply hash_key_inj in Heq. congruence. }
  cbn [Py.contains Py.getitem]. rewrite !has_get, get_set_ne by exact Hkey.
  unfold section_of_service.
  destruct Hsec as [Hnone | Hsome].
  - rewrite Hnone. reflexivity.
  - rewrite Hsome. cbn [Py.contains Py.getitem]. rewrite has_get. reflexivity.
Qed.

(** X10.  [store_password] for one key leaves the records of all other keys
    as they are: [verify_password] for another service, or for another user
    of the same service, answers after the call what it answered before. *)
Theorem store_keeps_other_records (s u h s' u' p : string) (w : world) :
  accepts_service s w = true ->
  s' <> s \/ u' <> u ->
  fst (verify_password lib s' u' p (snd (store_password s u h w))) =
    fst (verify_password lib s' u' p w).
Proof. apply store_keeps_other_records_aux. Qed.

(** X11.  On a configuration file that does not parse (empty, or not JSON)
    [store_password] and [verify_password] raise [JSONDecodeError] and
    change nothing, and [initialize_service_password] raises it after
    making the hash: the file is not rewritten and no plaintext is staged. *)
Theorem unparsable_store_raises (s u x : string) (f : file) (w : world) :
  config_file w = Some f ->
  data f = Empty \/ data f = Garbage ->
  store_password s u x w = (Raise JSONDecodeError, w) /\
  verify_password lib s u x w = (Raise JSONDecodeError, w) /\
  initialize_service_password lib s u x w =
    (Raise JSONDecodeError, with_drawn (S (drawn w)) w).
Proof.
  intros Hfile Hdata.
  assert (forall n, _load_config (with_drawn n w) = (Raise JSONDecodeError, with_drawn n w))
    as Hload.
  { intros n. unfold _load_config. cbn [config_file with_drawn]. rewrite Hfile.
    destruct Hdata as [-> | ->]; reflexivity. }
  assert (_load_config w = (Raise JSONDecodeError, w)) as Hload0.
  { unfold _load_config. rewrite Hfile. destruct Hdata as [-> | ->]; reflexivity. }
  split; [|split].
  - unfold store_password, bind. rewrite Hload0. reflexivity.
  - unfold verify_password, bind. rewrite Hload0. reflexivity.
  - unfold initialize_service_password, store_password, bind, draw. rewrite Hload.
    reflexivity.
Qed.

(** X12.  [store_password] is all or nothing on the state: either it raises
    and leaves everything as it was, or it returns and has changed the
    configuration file alone, which then holds a dict and has mode 0o600. *)
Theorem store_password_all_or_nothing (s u h : string) (w : world) :
  (exists e, store_password s u h w = (Raise e, w)) \/
  (exists d,
     store_password s u h w =
       (Ret tt, with_config_file (Some {| data := Dump (JDict d); mode := 384 |}) w)).
Proof.
  destruct (accepts_service s w) eqn:Hacc.
  - right. eexists. apply store_password_result. exact Hacc.
  - left. apply store_password_rejected. exact Hacc.
Qed.

(** What [clear_temporary] leaves staged. *)
Lemma staged_clear_all (s u s' u' : string) (t : pydict (pydict string)) :
  staged s' u' (clear_temporary s u t) =
    if String.eqb s s' && String.eqb u u' then None else staged s' u' t.
Proof.
  unfold clear_temporary, staged.
  destruct (Dict.get s t) as [users|] eqn:Hs.
  - rewrite has_get. destruct (Dict.get u users) as [p|] eqn:Hu.
    + rewrite get_set.
      destruct (String.eqb_spec s s') as [<-|Hne]; cbn [andb]; [|reflexivity].
      rewrite Hs. destruct (String.eqb_spec u u') as [<-|Hne].
      * apply get_del_eq.
      * apply get_del_ne. exact Hne.
    + destruct (String.eqb_spec s s') as [<-|Hne]; cbn [andb]; [|reflexivity].
      rewrite Hs. destruct (String.eqb_spec u u') as [<-|Hne]; [exact Hu | reflexivity].
  - destruct (String.eqb_spec s s') as [<-|Hne]; cbn [andb]; [|reflexivity].
    rewrite Hs. destruct (String.eqb u u'); reflexivity.
Qed.

(** What the take-once accessor leaves staged. *)
Lemma staged_after_get (s u s' u' : string) (w : world) :
  staged s' u' (_temp_passwords (snd (get_temporary_password s u w))) =
    if String.eqb s s' && String.eqb u u' then None
    else staged s' u' (_temp_passwords w).
Proof.
  unfold get_temporary_password, staged.
  destruct (Dict.get s (_temp_passwords w)) as [users|] eqn:Hs.
  - destruct (Dict.get u users) as [p|] eqn:Hu;
      cbn [snd _temp_passwords with_temp_passwords].
    + rewrite get_set.
      destruct (String.eqb_spec s s') as [<-|Hne]; cbn [andb]; [|reflexivity].
      rewrite Hs. destruct (String.eqb_spec u u') as [<-|Hne].
      * apply get_del_eq.
      * apply get_del_ne. exact Hne.
    + destruct (String.eqb_spec s s') as [<-|Hne]; cbn [andb]; [|reflexivity].
      rewrite Hs. destruct (String.eqb_spec u u') as [<-|Hne]; [exact Hu | reflexivity].
  - cbn [snd]. destruct (String.eqb_spec s s') as [<-|Hne]; cbn [andb]; [|reflexivity].
    rewrite Hs. destruct (String.eqb u u'); reflexivity.
Qed.

(** X13.  With a library that verifies the hashes it produces and a store
    that accepts the service, [update_service_password] returns; after it
    the new password verifies, no plaintext is staged for the key any more,
    and the plaintexts staged for all other keys are as before. *)
Theorem update_replaces_and_invalidates (s u p : string) (w : world) :
  Argon2.sound lib ->
  accepts_service s w = true ->
  exists w1,
    update_service_password lib s u p w = (Ret tt, w1) /\
    fst (verify_password lib s u p w1) = Ret true /\
    staged s u (_temp_passwords w1) = None /\
    forall s' u',
      s' <> s \/ u' <> u ->
      staged s' u' (_temp_passwords w1) = staged s' u' (_temp_passwords w).
Proof.
  intros Hsound Hacc.
  set (h := Argon2.hash_secret lib (Argon2.default_params lib) (entropy w (drawn w)) p).
  set (w0 := with_drawn (S (drawn w)) w).
  assert (accepts_service s w0 = true) as Hacc0 by exact Hacc.
  set (w1 := snd (store_password s u h w0)).
  exists (with_temp_passwords (clear_temporary s u (_temp_passwords w1)) w1).
  assert (store_password s u h w0 = (Ret tt, w1)) as Hstore.
  { unfold w1. rewrite (store_password_result s u h w0 Hacc0). reflexivity. }
  assert (_temp_passwords w1 = _temp_passwords w) as Htemp.
  { unfold w1. rewrite keeps_cache_store. reflexivity. }
  split; [|split; [|split]].
  - unfold update_service_password, update_password, bind, draw. fold h. fold w0.
    rewrite Hstore. reflexivity.
  - destruct (cache_independent_verify lib s u p
                (with_temp_passwords (clear_temporary s u (_temp_passwords w1)) w1) w1)
      as [-> _]; [reflexivity|].
    unfold w1. rewrite (verify_after_store_aux s u h p w0 Hacc0).
    unfold h. rewrite Hsound. reflexivity.
  - cbn [_temp_passwords with_temp_passwords].
    rewrite staged_clear_all, !String.eqb_refl. reflexivity.
  - intros s' u' Hother. cbn [_temp_passwords with_temp_passwords].
    rewrite staged_clear_all, Htemp.
    destruct (String.eqb_spec s s') as [<-|Hs]; cbn [andb]; [|reflexivity].
    destruct (String.eqb_spec u u') as [<-|Hu]; [|reflexivity].
    destruct Hother; congruence.
Qed.

(** X14.  [set_temporary_password] followed by the take-once accessor: for
    the key that was set the accessor returns the new plaintext, whatever
    was staged for it before; for every other key it returns what it would
    have returned without the call. *)
Theorem set_then_get (s u p s' u' : string) (w : world) :
  fst (get_temporary_password s' u' (snd (set_temporary_password s u p w))) =
    if String.eqb s s' && String.eqb u u' then Ret (Some p)
    else fst (get_temporary_password s' u' w).
Proof.
  destruct (get_temporary_password_spec s' u' (snd (set_temporary_password s u p w)))
    as [-> _].
  destruct (get_temporary_password_spec s' u' w) as [-> _].
  rewrite staged_set. destruct (String.eqb s s' && String.eqb u u'); reflexivity.
Qed.

(** X15.  Taking the plaintext of one key consumes that key only: a
    plaintext staged for another key is still returned afterwards. *)
Theorem take_leaves_others (s u s' u' : string) (w : world) :
  s' <> s \/ u' <> u ->
  fst (get_temporary_password s' u' (snd (get_temporary_password s u w))) =
    fst (get_temporary_password s' u' w).
Proof.
  intros Hother.
  destruct (get_temporary_password_spec s' u' (snd (get_temporary_password s u w)))
    as [-> _].
  destruct (get_temporary_password_spec s' u' w) as [-> _].
  rewrite staged_after_get.
  destruct (String.eqb_spec s s') as [<-|Hs]; cbn [andb]; [|reflexivity].
  destruct (String.eqb_spec u u') as [<-|Hu]; [|reflexivity].
  destruct Hother; congruence.
Qed.

End RepositoryMore.

(* ===================================================================== *)
(** ** Further properties of the hashing strategy and of the builder *)
(* ===================================================================== *)

Section AppMore.
Import App.

(** X16.  Hashing then verifying: [hash_password] returns a hash and
    changes nothing of the state but the count of draws, which the salt
    raises by one; with a library that verifies the hashes it produces,
    [verify_password] answers [True] for the password and that hash; with a
    library that tells passwords apart, it answers [False] for any other
    password; and [verify_password] leaves the state, whatever it is, as it
    finds it. *)
Theorem hash_then_verify (self : Argon2PasswordHasher) (password other : string)
        (w : world) :
  Argon2.sound (lib self) ->
  discerning (lib self) ->
  exists h,
    hash_password self password w = (Ret h, with_drawn (S (drawn w)) w) /\
    (forall w1, verify_password self password h w1 = (Ret true, w1)) /\
    (forall w1, other <> password -> verify_password self other h w1 = (Ret false, w1)).
Proof.
  intros Hsound Hdisc.
  exists (Argon2.hash_secret (lib self) (ph self) (entropy w (drawn w)) password).
  split; [reflexivity|].
  cbn [verify_password Argon2_hasher]. unfold argon2_verify_password.
  split.
  - intros w1. rewrite Hsound. destruct (Argon2.needs_rehash _ _ _); reflexivity.
  - intros w1 Hother. rewrite (Hdisc _ _ _ _ Hother). reflexivity.
Qed.

(** X17.  A setter that takes passwords puts, in each hash field of its
    section, a hash against which the password it was given verifies (with
    a library that verifies the hashes it produces). *)
Theorem stored_hashes_verify (self : ConfigurationBuilder Argon2PasswordHasher)
        (c : setter_call) (agg : pydict json) (w : world) :
  Argon2.sound (lib (hasher self)) ->
  heap w !! config self = Some agg ->
  exists w' agg' section,
    invoke self c w = (Ret self, w') /\
    heap w' !! config self = Some agg' /\
    Dict.get (section_key c) agg' = Some (JDict section) /\
    forall field plaintext,
      In (field, plaintext) (secrets_of c) ->
      exists h,
        Dict.get field section = Some (JStr h) /\
        Argon2.verify (lib (hasher self)) h plaintext = Ret true.
Proof.
  intros Hsound Hagg.
  destruct (invoke_effect self c agg w Hagg) as (w' & d1 & d2 & Hinvoke & Hheap).
  destruct (section_of (hasher self) c d1 d2) as [| | | | |section] eqn:Hsec;
    try (destruct c; discriminate).
  exists w', (Dict.set (section_key c) (JDict section) agg), section.
  split; [exact Hinvoke|]. split; [rewrite Hheap; apply lookup_insert_eq|].
  split; [apply get_set_eq|].
  intros field plaintext Hin.
  destruct c; cbn [secrets_of section_of] in Hin, Hsec; injection Hsec as <-;
    cbn [In] in Hin;
    repeat match goal with
           | H : _ \/ _ |- _ => destruct H as [H|H]
           | H : (_, _) = (_, _) |- _ => injection H as <- <-
           | H : False |- _ => destruct H
           end;
    (eexists; split; [reflexivity | apply Hsound]).
Qed.


(** X19.  [build()] may be called again: the second call returns the same
    dict as the first and changes nothing. *)
Theorem build_twice {H : Type} (self : ConfigurationBuilder H) (agg : pydict json)
        (w : world) :
  heap w !! config self = Some agg ->
  exists w1,
    build self w = (Ret (config self), w1) /\
    build self w1 = (Ret (config self), w1) /\
    (heap w1 !! config self) ≫= Dict.get "initialized" = Some (JBool true).
Proof.
  intros Hagg. rewrite (build_effect self agg w Hagg).
  eexists. split; [reflexivity|].
  split.
  - erewrite build_effect by (cbn [heap with_heap]; apply lookup_insert_eq).
    cbn [heap with_heap]. rewrite set_set, insert_insert_eq. reflexivity.
  - cbn [heap with_heap]. rewrite lookup_insert_eq. cbn. apply get_set_eq.
Qed.



End AppMore.

(* ===================================================================== *)
(** ** Properties of the configuration manager and of the routes *)
(* ===================================================================== *)

Section SetupMore.
Import PasswordManager Setup.
Variable lib : Argon2.library.
Variable format : json -> string.

Lemma first_missing_none (fields : list string) (form : pydict string) :
  first_missing fields form = None ->
  forall f, In f fields -> exists v, Dict.get f form = Some v /\ v <> "".
Proof.
  induction fields as [|g fields IH]; intros Hnone f Hin; [destruct Hin|].
  cbn [first_missing] in Hnone.
  destruct (Dict.get g form) as [[|c v]|] eqn:Hg; try discriminate.
  destruct Hin as [<- | Hin].
  - exists (String c v). split; [exact Hg | discriminate].
  - apply IH; assumption.
Qed.

(** [verify_password] reads the configuration file and nothing else. *)
Lemma verify_password_file_only (s u p : string) (w w' : world) :
  config_file w = config_file w' ->
  fst (verify_password lib s u p w) = fst (verify_password lib s u p w').
Proof.
  intros Hfile.
  unfold verify_password, bind, _load_config, lift, ret, raise.
  rewrite <- Hfile.
  destruct (config_file w) as [f|]; [destruct (data f) as [|j| |d1]|]; try reflexivity.
  destruct (Py.contains s j) as [[]|e]; cbn [negb]; try reflexivity.
  destruct (Py.getitem j s) as [section|e]; try reflexivity.
  destruct (Py.contains _ section) as [[]|e]; cbn [negb]; try reflexivity.
  destruct (Py.getitem section _) as [[| | |hash| |]|e]; try reflexivity.
  destruct (Argon2.verify lib hash p) as [b|[]]; reflexivity.
Qed.

(** One call of [initialize_service_password] on a store that accepts the
    service: what it does to the records, to the cache and to the file. *)
Lemma initialize_step (s u p : string) (w : world) :
  accepts_service s w = true ->
  exists w1,
    initialize_service_password lib s u p w = (Ret tt, w1) /\
    (forall p', fst (verify_password lib s u p' w1) =
       verdict (Argon2.verify lib
         (Argon2.hash_secret lib (Argon2.default_params lib) (entropy w (drawn w)) p) p')) /\
    (forall s' u' p', s' <> s \/ u' <> u ->
       fst (verify_password lib s' u' p' w1) = fst (verify_password lib s' u' p' w)) /\
    (forall s' u',
       staged s' u' (_temp_passwords w1) =
         if String.eqb s s' && String.eqb u u' then Some p
         else staged s' u' (_temp_passwords w)) /\
    (forall s', accepts_service s' w = true -> accepts_service s' w1 = true) /\
    (forall k, k <> s -> Dict.get k (config_dict w1) = Dict.get k (config_dict w)).
Proof.
  intros Hacc.
  set (h := Argon2.hash_secret lib (Argon2.default_params lib) (entropy w (drawn w)) p).
  set (w0 := with_drawn (S (drawn w)) w).
  assert (accepts_service s w0 = true) as Hacc0 by exact Hacc.
  pose proof (store_password_result s u h w0 Hacc0) as Hstore.
  set (F := Some _) in Hstore.
  exists (snd (set_temporary_password s u p (with_config_file F w0))).
  split; [|split; [|split; [|split; [|split]]]].
  - unfold initialize_service_password, bind, draw. fold h. fold w0.
    rewrite Hstore. reflexivity.
  - intros p'.
    rewrite (verify_password_file_only s u p' _ (snd (store_password s u h w0)))
      by (rewrite Hstore; reflexivity).
    apply verify_after_store_aux. exact Hacc0.
  - intros s' u' p' Hother.
    rewrite (verify_password_file_only s' u' p' _ (snd (store_password s u h w0)))
      by (rewrite Hstore; reflexivity).
    rewrite (store_keeps_other_records_aux lib s u h s' u' p' w0 Hacc0 Hother).
    apply verify_password_file_only. reflexivity.
  - intros s' u'. rewrite staged_set. reflexivity.
  - intros s' Hs'. unfold accepts_service in *.
    cbn [snd set_temporary_password config_file with_temp_passwords with_config_file].
    unfold F. cbn [data]. rewrite get_set.
    destruct (String.eqb_spec s s') as [<-|Hne]; [reflexivity|].
    unfold config_dict, w0. cbn [config_file with_drawn].
    destruct (config_file w) as [[[|[| | | | |d]| |d1] m]|]; cbn [data] in *; try discriminate;
      auto.
  - intros k Hk. unfold config_dict at 1.
    cbn [snd set_temporary_password config_file with_temp_passwords with_config_file].
    unfold F. rewrite get_set_ne by congruence. reflexivity.
Qed.

(** The run of the route on a valid form, for a site not yet initialized:
    whatever holds of every outcome described by [provisioned] holds of the
    outcome of the route. *)
Lemma initialize_valid_run (form : pydict string) (s : site)
      (P : result response * site -> Prop) :
  init_flag s = false ->
  valid_form form = true ->
  (forall s', provisioned lib format form s s' -> P (Ret initialized_ok, s')) ->
  P (initialize lib format form s).
Proof.
  intros Hflag Hvalid HP. unfold valid_form in Hvalid.
  destruct (first_missing required_fields form) eqn:Hmiss; [discriminate|].
  apply andb_true_iff in Hvalid as [Hconfirm Hlen].
  apply String.eqb_eq in Hconfirm. apply negb_true_iff in Hlen.
  pose proof (first_missing_none _ _ Hmiss) as Hget.
  destruct (Hget "admin_email") as (ae & Hae & _); [cbn; tauto|].
  destruct (Hget "admin_password") as (ap & Hap & _); [cbn; tauto|].
  destruct (Hget "admin_password_confirm") as (apc & Hapc & _); [cbn; tauto|].
  destruct (Hget "db_password") as (dp & Hdp & _); [cbn; tauto|].
  destruct (Hget "ldap_admin_password") as (la & Hla & _); [cbn; tauto|].
  destruct (Hget "ldap_readonly_password") as (lr & Hlr & _); [cbn; tauto|].
  clear Hget. unfold field_of in *.
  rewrite Hap, Hapc in Hconfirm. rewrite Hap in Hlen. simpl in Hconfirm, Hlen.
  subst apc.
  unfold initialize, bindW, is_initialized, or_500. rewrite Hflag, Hmiss.
  unfold item.
  rewrite ?Hae, ?Hap, ?Hapc, ?Hdp, ?Hla, ?Hlr, String.eqb_refl. cbn [negb].
  rewrite Hlen.
  unfold in_process, App.ConfigurationBuilder_init, draw.
  cbn -[lookup insert App.fresh initialize_service_password].
  unfold App.set_admin_credentials, App.set_database_credentials, App.set_ldap_configuration,
    App.set_radius_configuration, App.set_security_keys, App.build, App.deref, bind, ret, draw,
    App.config_set.
  cbn -[lookup insert App.fresh initialize_service_password].
  repeat (rewrite lookup_insert_eq;
          cbn -[lookup insert App.fresh initialize_service_password]).
  match goal with
  | |- context [initialize_service_password lib "database" "authentik" dp ?w] =>
      set (w0 := w)
  end.
  set (S0 := with_init_passwords_sh _ _).
  assert (accepts_service "database" w0 = true) as Hd0 by reflexivity.
  assert (accepts_service "ldap" w0 = true) as Hl0 by reflexivity.
  assert (accepts_service "authentik" w0 = true) as Hk0 by reflexivity.
  assert (Dict.get "initialized" (config_dict w0) = Some (JBool true)) as Hi0 by reflexivity.
  assert (Dict.get "security" (config_dict w0) =
            Some (JDict [("authentik_secret_key", JStr (entropy (process s) (drawn (process s))));
                         ("api_token", JStr (entropy (process s) (7 + drawn (process s))))]))
    as Hsec0 by reflexivity.
  assert (init_passwords_sh S0 =
            Some {| text := init_script
                      [("DB_INIT_PASSWORD", dp); ("LDAP_ADMIN_INIT_PASSWORD", la);
                       ("LDAP_READONLY_INIT_PASSWORD", lr); ("ADMIN_INIT_PASSWORD", ap)];
                    text_mode := 384 |}) as Hscript by reflexivity.
  assert (env_secure S0 =
            Some {| text := env_content
                      (format (JStr (default "authentik" (Dict.get "db_username" form))))
                      (format (JStr (default "authentik" (Dict.get "db_name" form))))
                      (format (JStr ae))
                      (format (JStr (default "dc=local,dc=auth" (Dict.get "ldap_base_dn" form))))
                      (format (JStr (entropy (process s) (drawn (process s)))));
                    text_mode := 384 |}) as Henv by reflexivity.
  destruct (initialize_step "database" "authentik" dp w0 Hd0)
    as (w1 & Hrun1 & Hv1 & Hf1 & Hs1 & Ha1 & Hc1).
  destruct (initialize_step "ldap" "admin" la w1 (Ha1 _ Hl0))
    as (w2 & Hrun2 & Hv2 & Hf2 & Hs2 & Ha2 & Hc2).
  destruct (initialize_step "ldap" "readonly" lr w2 (Ha2 _ (Ha1 _ Hl0)))
    as (w3 & Hrun3 & Hv3 & Hf3 & Hs3 & Ha3 & Hc3).
  destruct (initialize_step "authentik" "admin" ap w3 (Ha3 _ (Ha2 _ (Ha1 _ Hk0))))
    as (w4 & Hrun4 & Hv4 & Hf4 & Hs4 & Ha4 & Hc4).
  clearbody S0. clearbody w0.
  rewrite Hrun1. cbn -[initialize_service_password].
  rewrite Hrun2. cbn -[initialize_service_password].
  rewrite Hrun3. cbn -[initialize_service_password].
  rewrite Hrun4. cbn -[initialize_service_password].
  apply HP. unfold provisioned, init_passwords_text, field_of.
  rewrite Hae, Hap, Hdp, Hla, Hlr. simpl (default _ (Some _)).
  cbn [init_flag process init_passwords_sh env_secure with_init_flag with_process].
  split; [reflexivity|]. split; [exact Hscript|].
  assert (forall s' u', staged s' u' (_temp_passwords w4) =
            if String.eqb "authentik" s' && String.eqb "admin" u' then Some ap
            else if String.eqb "ldap" s' && String.eqb "readonly" u' then Some lr
            else if String.eqb "ldap" s' && String.eqb "admin" u' then Some la
            else if String.eqb "database" s' && String.eqb "authentik" u' then Some dp
            else staged s' u' (_temp_passwords w0)) as Hstaged.
  { intros s' u'. rewrite Hs4, Hs3, Hs2, Hs1. reflexivity. }
  split.
  { intros service username field Hin. cbn [In service_credentials] in Hin.
    destruct Hin as [Hin|[Hin|[Hin|[Hin|[]]]]]; injection Hin as <- <- <-;
      rewrite Hstaged, ?Hap, ?Hdp, ?Hla, ?Hlr; reflexivity. }
  split.
  { intros Hsound service username field Hin. cbn [In service_credentials] in Hin.
    destruct Hin as [Hin|[Hin|[Hin|[Hin|[]]]]]; injection Hin as <- <- <-;
      rewrite ?Hap, ?Hdp, ?Hla, ?Hlr; simpl (default _ (Some _)).
    - rewrite Hf4, Hf3, Hf2, Hv1 by (left; discriminate). rewrite Hsound. reflexivity.
    - rewrite Hf4, Hf3, Hv2 by (first [left; discriminate | right; discriminate]).
      rewrite Hsound. reflexivity.
    - rewrite Hf4, Hv3 by (left; discriminate). rewrite Hsound. reflexivity.
    - rewrite Hv4, Hsound. reflexivity. }
  split; [rewrite Hc4, Hc3, Hc2, Hc1 by discriminate; exact Hi0|].
  split; [rewrite Hc4, Hc3, Hc2, Hc1 by discriminate; exact Hsec0|].
  exact Henv.
Qed.

(** The same, as the existence of the outcome. *)
Lemma initialize_valid (form : pydict string) (s : site) :
  init_flag s = false ->
  valid_form form = true ->
  exists s',
    initialize lib format form s = (Ret initialized_ok, s') /\
    provisioned lib format form s s'.
Proof.
  intros Hflag Hvalid.
  apply (initialize_valid_run form s
           (fun out => exists s', out = (Ret initialized_ok, s') /\
                                  provisioned lib format form s s'));
    [exact Hflag | exact Hvalid |].
  intros s' Hs'. exists s'. split; [reflexivity | exact Hs'].
Qed.

(** X21.  The route refuses, with status 400 and without changing
    anything, a request made when the system is already initialized and a
    form that fails a check: a required field missing or empty, a
    confirmation that differs, an admin password under twelve characters. *)
Theorem invalid_request_changes_nothing (form : pydict string) (s : site) :
  init_flag s = true \/ valid_form form = false ->
  exists msg, initialize lib format form s = (Ret (refused msg), s).
Proof.
  intros Hbad. unfold initialize, bindW, is_initialized.
  destruct (init_flag s) eqn:Hflag; [eexists; reflexivity|].
  destruct Hbad as [Hbad | Hbad]; [discriminate|].
  unfold valid_form in Hbad. unfold or_500.
  destruct (first_missing required_fields form) as [f|] eqn:Hmiss;
    [eexists; reflexivity|].
  pose proof (first_missing_none _ _ Hmiss) as Hget.
  destruct (Hget "admin_password") as (ap & Hap & _); [cbn; tauto|].
  destruct (Hget "admin_password_confirm") as (apc & Hapc & _); [cbn; tauto|].
  unfold field_of in Hbad. rewrite Hap, Hapc in Hbad. simpl in Hbad.
  unfold item. rewrite Hap, Hapc.
  destruct (String.eqb ap apc); cbn [negb andb] in *; [|eexists; reflexivity].
  apply negb_false_iff in Hbad. rewrite Hbad. eexists. reflexivity.
Qed.

(** X22.  On a valid form, for a system not yet initialized and a library
    that verifies the hashes it produces, the route answers 200 and marks
    the system initialized; each of the four credentials it hands to the
    password service then verifies against the store and has its plaintext
    staged for one retrieval. *)
Theorem initialize_provisions_credentials (form : pydict string) (s : site) :
  init_flag s = false ->
  valid_form form = true ->
  Argon2.sound lib ->
  exists s',
    initialize lib format form s = (Ret initialized_ok, s') /\
    init_flag s' = true /\
    forall service username field,
      In (service, username, field) service_credentials ->
      fst (verify_password lib service username (field_of form field) (process s'))
        = Ret true /\
      fst (get_temporary_password service username (process s'))
        = Ret (Some (field_of form field)).
Proof.
  intros Hflag Hvalid Hsound.
  destruct (initialize_valid form s Hflag Hvalid)
    as (s' & Hrun & Hinit & _ & Hstaged & Hverify & _).
  exists s'. split; [exact Hrun|]. split; [exact Hinit|].
  intros service username field Hin. split.
  - apply (Hverify Hsound). exact Hin.
  - destruct (get_temporary_password_spec service username (process s')) as [-> _].
    rewrite (Hstaged _ _ _ Hin). reflexivity.
Qed.

(** X23.  A successful run of the route leaves the four passwords of the
    form in clear in [init_passwords.sh], one export line each, the file
    having mode 0o600. *)
Theorem initialize_writes_passwords_in_clear (form : pydict string) (s : site) :
  init_flag s = false ->
  valid_form form = true ->
  exists s',
    initialize lib format form s = (Ret initialized_ok, s') /\
    init_passwords_sh s' =
      Some {| text :=
                "#!/bin/bash" ++ PyStr.LF
                ++ "# Temporary passwords for initialization" ++ PyStr.LF ++ PyStr.LF
                ++ "export DB_INIT_PASSWORD='" ++ field_of form "db_password" ++ "'"
                ++ PyStr.LF
                ++ "export LDAP_ADMIN_INIT_PASSWORD='"
                ++ field_of form "ldap_admin_password" ++ "'" ++ PyStr.LF
                ++ "export LDAP_READONLY_INIT_PASSWORD='"
                ++ field_of form "ldap_readonly_password" ++ "'" ++ PyStr.LF
                ++ "export ADMIN_INIT_PASSWORD='" ++ field_of form "admin_password" ++ "'"
                ++ PyStr.LF;
              text_mode := 384 |}.
Proof.
  intros Hflag Hvalid.
  destruct (initialize_valid form s Hflag Hvalid) as (s' & Hrun & _ & Hscript & _).
  exists s'. split; [exact Hrun|]. rewrite Hscript. f_equal. f_equal.
  unfold init_passwords_text, init_script. cbn [fold_left].
  rewrite !append_assoc. reflexivity.
Qed.

(** X24.  The route initializes once: after a successful run every further
    request, whatever its form, is refused with status 400 and changes
    nothing. *)
Theorem initialize_is_one_shot (form : pydict string) (s : site) :
  init_flag s = false ->
  valid_form form = true ->
  exists s',
    initialize lib format form s = (Ret initialized_ok, s') /\
    forall form',
      initialize lib format form' s' = (Ret (refused "System already initialized"), s').
Proof.
  intros Hflag Hvalid.
  destruct (initialize_valid form s Hflag Hvalid) as (s' & Hrun & Hinit & _).
  exists s'. split; [exact Hrun|].
  intros form'. unfold initialize, bindW, is_initialized. rewrite Hinit. reflexivity.
Qed.

(** X25.  After a successful run [.env.secure] carries the very secret key
    that the saved configuration has under [security], in clear, next to
    the database user and name, the admin e-mail and the LDAP base DN; it
    has mode 0o600. *)
Theorem secret_key_in_environment_file (form : pydict string) (s : site) :
  (forall x, format (JStr x) = x) ->
  init_flag s = false ->
  valid_form form = true ->
  exists s' key token,
    initialize lib format form s = (Ret initialized_ok, s') /\
    Dict.get "security" (config_dict (process s')) =
      Some (JDict [("authentik_secret_key", JStr key); ("api_token", JStr token)]) /\
    env_secure s' =
      Some {| text :=
                env_content
                  (default "authentik" (Dict.get "db_username" form))
                  (default "authentik" (Dict.get "db_name" form))
                  (field_of form "admin_email")
                  (default "dc=local,dc=auth" (Dict.get "ldap_base_dn" form))
                  key;
              text_mode := 384 |}.
Proof.
  intros Hformat Hflag Hvalid.
  destruct (initialize_valid form s Hflag Hvalid)
    as (s' & Hrun & _ & _ & _ & _ & _ & Hsec & Henv).
  exists s', (entropy (process s) (drawn (process s))),
         (entropy (process s) (7 + drawn (process s))).
  split; [exact Hrun|]. split; [exact Hsec|].
  rewrite Henv, !Hformat. reflexivity.
Qed.

(** X26.  [generate_environment_file] writes [.env.secure] or nothing: on a
    configuration that lacks one of the values it reads, it raises before
    the file is opened (a [KeyError] when the [database] section is not
    there) and leaves the site as it was; otherwise it returns and has
    written that file alone, with mode 0o600. *)
Theorem environment_file_all_or_nothing (config : json) (s : site) :
  ((exists e, generate_environment_file format config s = (Raise e, s)) \/
   (exists content,
      generate_environment_file format config s =
        (Ret tt, with_env_secure (Some {| text := content; text_mode := 384 |}) s))) /\
  (forall d, config = JDict d -> Dict.get "database" d = None ->
     generate_environment_file format config s = (Raise KeyError, s)).
Proof.
  split.
  - unfold generate_environment_file.
    destruct (field format config "database" "username"); [|eauto].
    destruct (field format config "database" "database"); [|eauto].
    destruct (field format config "admin" "email"); [|eauto].
    destruct (field format config "ldap" "base_dn"); [|eauto].
    destruct (field format config "security" "authentik_secret_key"); eauto.
  - intros d -> Hd. unfold generate_environment_file, field. cbn [Py.getitem].
    rewrite Hd. reflexivity.
Qed.

End SetupMore.

(* ===================================================================== *)
(** ** The further properties on concrete inputs *)
(* ===================================================================== *)

Section CheckedMore.
Import Scenario MoreScenario.

Lemma bit_inj (b b' : bool) : bit b = bit b' -> b = b'.
Proof. destruct b, b'; intros Hbit; try reflexivity; discriminate Hbit. Qed.

Lemma bits_inj (s : string) : forall t, bits s = bits t -> s = t.
Proof.
  induction s as [|[b0 b1 b2 b3 b4 b5 b6 b7] s IH];
    intros [|[c0 c1 c2 c3 c4 c5 c6 c7] t]; cbn [bits]; intros Hbits;
    try reflexivity; try discriminate Hbits.
  injection Hbits as H0 H1 H2 H3 H4 H5 H6 H7 Hrest.
  apply bit_inj in H0, H1, H2, H3, H4, H5, H6, H7. apply IH in Hrest.
  subst. reflexivity.
Qed.

Lemma stand_in_last_field (salt password : string) :
  last_field ("$argon2id$" ++ bits salt ++ "$" ++ bits password) = bits password.
Proof.
  unfold last_field.
  change ("$argon2id$" ++ bits salt ++ "$" ++ bits password)
    with (String "$"%char ("argon2id" ++ String "$"%char
            (bits salt ++ String "$"%char (bits password)))).
  change (PyStr.split_once "$"%char
            (String "$"%char ("argon2id" ++ String "$"%char
               (bits salt ++ String "$"%char (bits password)))))
    with (EmptyString, "argon2id" ++ String "$"%char
                          (bits salt ++ String "$"%char (bits password))).
  cbn [snd].
  change (PyStr.split_once "$"%char
            ("argon2id" ++ String "$"%char
               (bits salt ++ String "$"%char (bits password))))
    with ("argon2id", bits salt ++ String "$"%char (bits password)).
  cbn [snd]. rewrite split_once_bits. reflexivity.
Qed.

(** The stand-in tells another password from the one a hash was made of. *)
Lemma stand_in_discerning : discerning stand_in.
Proof.
  intros ps salt password other Hother. unfold Argon2.verify.
  cbn [Argon2.hash_secret Argon2.verify_secret stand_in].
  assert (Argon2.is_ascii ("$argon2id$" ++ bits salt ++ "$" ++ bits password) = true)
    as ->.
  { rewrite !is_ascii_app, !is_ascii_bits. reflexivity. }
  rewrite stand_in_last_field.
  destruct (String.eqb (bits password) (bits other)) eqn:Heq; [|reflexivity].
  apply String.eqb_eq, bits_inj in Heq. congruence.
Qed.

Lemma identification_failure_stops_witness :
  Bridge.main refusing_identification stdin_jdoe =
    (1%Z, {| Bridge.calls := [Bridge.PostIdentification "jdoe"];
             Bridge.stdout := [failure_line] |}).
Proof.
  apply (identification_failure_stops refusing_identification stdin_jdoe).
  - vm_compute. discriminate.
  - vm_compute. discriminate.
  - reflexivity.
Defined.

Lemma password_failure_rejects_witness :
  Bridge.main refusing_password stdin_jdoe =
    (1%Z, {| Bridge.calls := [Bridge.PostIdentification "jdoe";
                              Bridge.PostPassword "password123"];
             Bridge.stdout := [failure_line] |}).
Proof.
  apply (password_failure_rejects refusing_password stdin_jdoe).
  - vm_compute. discriminate.
  - vm_compute. discriminate.
  - reflexivity.
  - reflexivity.
Defined.

Lemma accept_needs_both_stages_witness :
  fst (Bridge.main active_account stdin_jdoe) = 0%Z /\
  Bridge.calls (snd (Bridge.main active_account stdin_jdoe)) =
    full_exchange "jdoe" "password123".
Proof.
  split; [reflexivity|].
  destruct (accept_needs_both_stages active_account stdin_jdoe)
    as (_ & _ & _ & _ & Hcalls); [reflexivity | exact Hcalls].
Defined.

Lemma last_line_wins_witness :
  Bridge.read_attributes stdin_twice ∅ !! "User-Password" = Some "second".
Proof.
  apply (last_line_wins ["User-Name=jdoe" ++ PyStr.LF; "User-Password=first" ++ PyStr.LF]
           [] ("User-Password=second" ++ PyStr.LF) "User-Password" ∅).
  - reflexivity.
  - reflexivity.
Defined.

Lemma split_once_rejoins_witness :
  "User-Password=a=b" =
    fst (PyStr.split_once "="%char "User-Password=a=b")
    ++ String "="%char (snd (PyStr.split_once "="%char "User-Password=a=b")) /\
  PyStr.split_once "="%char "User-Password=a=b" = ("User-Password", "a=b").
Proof.
  split; [|reflexivity].
  destruct (split_once_rejoins "="%char "User-Password=a=b") as [Hjoin _];
    [reflexivity | exact Hjoin].
Defined.

Lemma quoted_line_reads_back_witness :
  parsed "User-Name" ["User-Name=" ++ PyStr.quoted "jdoe" ++ PyStr.LF] = "jdoe".
Proof.
  destruct (quoted_line_reads_back "User-Name" "jdoe") as [_ Hparsed];
    [reflexivity | reflexivity | exact Hparsed].
Defined.

Lemma verify_unknown_is_false_witness :
  PasswordManager.verify_password stand_in "db" "app" "P@ss1234" boot = (Ret false, boot).
Proof.
  apply (verify_unknown_is_false stand_in "db" "app" "P@ss1234" boot).
  left. reflexivity.
Defined.

Lemma verify_after_store_witness :
  fst (PasswordManager.verify_password stand_in "db" "app" "P@ss1234"
         (snd (PasswordManager.store_password "db" "app" "not-a-hash" Scenario.provisioned)))
    = Raise InvalidHashError.
Proof.
  apply (verify_after_store stand_in "db" "app" "not-a-hash" "P@ss1234"
           Scenario.provisioned).
  reflexivity.
Defined.

Lemma store_keeps_other_records_witness :
  fst (PasswordManager.verify_password stand_in "db" "app" "P@ss1234"
         (snd (PasswordManager.store_password "db" "backup" "not-a-hash"
                 Scenario.provisioned)))
    = Ret true.
Proof.
  rewrite (store_keeps_other_records stand_in "db" "backup" "not-a-hash" "db" "app"
             "P@ss1234" Scenario.provisioned).
  - reflexivity.
  - reflexivity.
  - right. discriminate.
Defined.

Lemma unparsable_store_raises_witness :
  PasswordManager.store_password "db" "app" "x" garbled = (Raise JSONDecodeError, garbled) /\
  PasswordManager.verify_password stand_in "db" "app" "x" garbled
    = (Raise JSONDecodeError, garbled).
Proof.
  destruct (unparsable_store_raises stand_in "db" "app" "x"
              {| data := Garbage; mode := 420 |} garbled)
    as (Hstore & Hverify & _); [reflexivity | right; reflexivity |].
  split; [exact Hstore | exact Hverify].
Defined.

Lemma update_replaces_and_invalidates_witness :
  exists w1,
    PasswordManager.update_service_password stand_in "db" "app" "N3w-secret"
      Scenario.provisioned = (Ret tt, w1) /\
    fst (PasswordManager.verify_password stand_in "db" "app" "N3w-secret" w1) = Ret true /\
    PasswordManager.staged "db" "app" (_temp_passwords w1) = None.
Proof.
  destruct (update_replaces_and_invalidates stand_in "db" "app" "N3w-secret"
              Scenario.provisioned stand_in_sound eq_refl)
    as (w1 & Hrun & Hverify & Hstaged & _).
  exists w1. repeat split; assumption.
Defined.

Lemma take_leaves_others_witness :
  fst (PasswordManager.get_temporary_password "db" "app"
         (snd (PasswordManager.get_temporary_password "ldap" "admin" Scenario.provisioned)))
    = Ret (Some "P@ss1234").
Proof.
  rewrite (take_leaves_others "ldap" "admin" "db" "app" Scenario.provisioned).
  - reflexivity.
  - left. discriminate.
Defined.

Lemma hash_then_verify_witness :
  exists h,
    App.hash_password (App.Argon2PasswordHasher_init stand_in) "correct-horse" boot
      = (Ret h, with_drawn 1 boot) /\
    App.verify_password (App.Argon2PasswordHasher_init stand_in) "correct-horse" h
      (with_drawn 1 boot) = (Ret true, with_drawn 1 boot) /\
    App.verify_password (App.Argon2PasswordHasher_init stand_in) "correct-hors" h
      (with_drawn 1 boot) = (Ret false, with_drawn 1 boot).
Proof.
  destruct (hash_then_verify (App.Argon2PasswordHasher_init stand_in)
              "correct-horse" "correct-hors" boot stand_in_sound stand_in_discerning)
    as (h & Hhash & Hsame & Hother).
  exists h. split; [exact Hhash|]. split; [apply Hsame|].
  apply Hother. discriminate.
Defined.

Lemma stored_hashes_verify_witness :
  exists w' agg' section h,
    App.invoke a_builder
      (App.SetLdapConfiguration "dc=local,dc=auth" "admin-secret" "reader-secret")
      with_builder = (Ret a_builder, w') /\
    heap w' !! 1 = Some agg' /\
    Dict.get "ldap" agg' = Some (JDict section) /\
    Dict.get "readonly_password_hash" section = Some (JStr h) /\
    Argon2.verify stand_in h "reader-secret" = Ret true.
Proof.
  destruct (stored_hashes_verify a_builder
              (App.SetLdapConfiguration "dc=local,dc=auth" "admin-secret" "reader-secret")
              (App.initial_entries false) with_builder stand_in_sound eq_refl)
    as (w' & agg' & section & Hrun & Hheap & Hsection & Hfields).
  destruct (Hfields "readonly_password_hash" "reader-secret") as (h & Hget & Hverify);
    [right; left; reflexivity|].
  exists w', agg', section, h. repeat split; assumption.
Defined.


Lemma build_twice_witness :
  exists w1,
    App.build a_builder with_builder = (Ret 1, w1) /\
    App.build a_builder w1 = (Ret 1, w1).
Proof.
  destruct (build_twice a_builder (App.initial_entries false) with_builder eq_refl)
    as (w1 & Hfirst & Hsecond & _).
  exists w1. split; assumption.
Defined.

Lemma invalid_request_changes_nothing_witness :
  exists msg,
    Setup.initialize stand_in plain_format mistyped_form new_site
      = (Ret (refused msg), new_site).
Proof.
  apply (invalid_request_changes_nothing stand_in plain_format mistyped_form new_site).
  right. reflexivity.
Defined.

Lemma initialize_provisions_credentials_witness :
  exists s',
    Setup.initialize stand_in plain_format setup_form new_site = (Ret initialized_ok, s') /\
    Setup.init_flag s' = true /\
    fst (PasswordManager.verify_password stand_in "ldap" "readonly" "ldap-reader-pw"
           (Setup.process s')) = Ret true /\
    fst (PasswordManager.get_temporary_password "ldap" "readonly" (Setup.process s'))
      = Ret (Some "ldap-reader-pw").
Proof.
  destruct (initialize_provisions_credentials stand_in plain_format setup_form new_site
              eq_refl eq_refl stand_in_sound) as (s' & Hrun & Hflag & Hall).
  destruct (Hall "ldap" "readonly" "ldap_readonly_password") as [Hverify Hstaged];
    [right; right; left; reflexivity|].
  exists s'. repeat split; assumption.
Defined.

Lemma initialize_writes_passwords_in_clear_witness :
  exists s' script,
    Setup.initialize stand_in plain_format setup_form new_site = (Ret initialized_ok, s') /\
    Setup.init_passwords_sh s' = Some script /\
    PyStr.contains "export ADMIN_INIT_PASSWORD='correct-horse-battery'" (Setup.text script)
      = true /\
    Setup.text_mode script = 384%N.
Proof.
  destruct (initialize_writes_passwords_in_clear stand_in plain_format setup_form new_site
              eq_refl eq_refl) as (s' & Hrun & Hscript).
  exists s'. eexists. split; [exact Hrun|]. split; [exact Hscript|].
  split; reflexivity.
Defined.

Lemma initialize_is_one_shot_witness :
  exists s',
    Setup.initialize stand_in plain_format setup_form new_site = (Ret initialized_ok, s') /\
    Setup.initialize stand_in plain_format setup_form s'
      = (Ret (refused "System already initialized"), s').
Proof.
  destruct (initialize_is_one_shot stand_in plain_format setup_form new_site
              eq_refl eq_refl) as (s' & Hrun & Hagain).
  exists s'. split; [exact Hrun | apply Hagain].
Defined.

Lemma secret_key_in_environment_file_witness :
  exists s' key token file,
    Setup.initialize stand_in plain_format setup_form new_site = (Ret initialized_ok, s') /\
    Dict.get "security" (config_dict (Setup.process s')) =
      Some (JDict [("authentik_secret_key", JStr key); ("api_token", JStr token)]) /\
    Setup.env_secure s' = Some file /\
    Setup.text file =
      Setup.env_content "authentik" "authentik" "root@example.org" "dc=local,dc=auth" key.
Proof.
  destruct (secret_key_in_environment_file stand_in plain_format setup_form new_site
              (fun x => eq_refl) eq_refl eq_refl)
    as (s' & key & token & Hrun & Hsec & Henv).
  exists s', key, token. eexists. split; [exact Hrun|]. split; [exact Hsec|].
  split; [exact Henv | reflexivity].
Defined.

End CheckedMore.
